(** * pywws: windowed aggregation and upload services

    A shallow embedding of

      - [scripts/bulk_metoffice_generator.py]  (module [Bulk]),
      - [src/pywws/service/cwop.py]            (module [Cwop]),
      - [src/pywws/service/openweathermap.py]  (module [OpenWeatherMap]),

    together with the parts of pywws these files call but that live in
    other files of the project ([DataStore], the template engine, the
    upload scheduler of [pywws.service]).

    Conventions.
      - A [datetime] is the number of microseconds since [datetime.min]
        (0001-01-01 00:00:00), a [timedelta] a number of microseconds.
      - A calibrated numeric field (a Python float) is a fixed-point
        number of tenths of its unit, kept in [Z]; a field that can be
        [None] is an [option Z].
      - A call that can raise returns a [result]. *)

From Stdlib Require Import ZArith List Lia Bool Ascii String Sorted.
From stdpp Require Import base numbers option list sorting strings gmap.

Local Open Scope Z_scope.

(** ** Exceptions and results *)

Inductive exn : Type :=
  | UnboundLocalError (name : string)
  | KeyError (key : string)
  | TypeError
  | ValueError (what : string)
  | UnicodeEncodeError
  | IOError (what : string).

Inductive result (A : Type) : Type :=
  | Ok (a : A)
  | Raise (e : exn).
Arguments Ok {A} a.
Arguments Raise {A} e.

Definition rbind {A B} (m : result A) (k : A -> result B) : result B :=
  match m with
  | Ok a => k a
  | Raise e => Raise e
  end.

Definition succeeded {A} (m : result A) : bool :=
  match m with
  | Ok _ => true
  | Raise _ => false
  end.

Notation "'let!' x ':=' m 'in' k" := (rbind m (fun x => k))
  (at level 10, x name, m at level 100, k at level 200).

(** ** timedelta *)

Definition timedelta_seconds (s : Z) : Z := s * 1000000.
Definition timedelta_minutes (m : Z) : Z := timedelta_seconds (m * 60).
Definition timedelta_hours (h : Z) : Z := timedelta_minutes (h * 60).

Definition datetime_min : Z := 0.

(** ** Python 2 ordering and truth of float-or-None values *)

Module Py.

(** [b > a] on values that may be [None]: [None] is below every number. *)
Definition gt (b a : option Z) : bool :=
  match b, a with
  | None, _ => false
  | Some _, None => true
  | Some y, Some x => x <? y
  end.

(** [a <= b] in the same order, as a proposition. *)
Definition le (a b : option Z) : Prop := gt a b = false.

(** [max(a, b)]: the first of the largest arguments. *)
Definition max (a b : option Z) : option Z := if gt b a then b else a.

(** [bool(value)] for a float, an int or [None]. *)
Definition truthy (value : option Z) : bool :=
  match value with
  | None => false
  | Some x => negb (x =? 0)
  end.

Definition nl : string := String (ascii_of_nat 10) EmptyString.

Definition digit (d : Z) : ascii := ascii_of_nat (48 + Z.to_nat d).

(** Decimal digits of [n >= 0], most significant first. *)
Fixpoint digits (fuel : nat) (n : Z) : string :=
  match fuel with
  | O => EmptyString
  | S fuel' =>
      (if n <? 10 then EmptyString else digits fuel' (n / 10))
        +:+ String (digit (n mod 10)) EmptyString
  end.

Definition str_nat (n : Z) : string := digits (S (Z.to_nat (Z.log2 n))) n.

(** [str(n)], also ['%d' % n] and ['{:d}'.format(n)], for an int. *)
Definition str_int (n : Z) : string :=
  if n <? 0 then "-" +:+ str_nat (- n) else str_nat n.

Fixpoint zeros (n : nat) : string :=
  match n with
  | O => EmptyString
  | S n' => String "0" (zeros n')
  end.

Definition zfill (w : nat) (s : string) : string :=
  zeros (w - String.length s) +:+ s.

(** ['%0wd' % n] for an int: zero padded to [w] characters, the sign
    included. *)
Definition pad_int (w : nat) (n : Z) : string :=
  if n <? 0 then "-" +:+ zfill (w - 1) (str_nat (- n)) else zfill w (str_nat n).

(** ['%.2f' % x] for [x] given in tenths. *)
Definition fmt_2f (x : Z) : string :=
  (if x <? 0 then "-" else "")
    +:+ str_nat (Z.abs x / 10) +:+ "." +:+ str_nat (Z.abs x mod 10) +:+ "0".

(** ['%d' % x] for a float [x] given in tenths: truncated towards 0. *)
Definition fmt_d (x : Z) : string := str_int (Z.quot x 10).

(** [s.strip()], on the white space of ASCII. *)
Definition is_white (c : ascii) : bool :=
  let n := nat_of_ascii c in (Nat.eqb n 32 || (Nat.leb 9 n && Nat.leb n 13))%bool.

Fixpoint lstrip (s : string) : string :=
  match s with
  | String c s' => if is_white c then lstrip s' else s
  | EmptyString => EmptyString
  end.

Definition strip (s : string) : string :=
  String.rev (lstrip (String.rev (lstrip s))).

Definition digit_value (c : ascii) : option Z :=
  let n := nat_of_ascii c in
  if (Nat.leb 48 n && Nat.leb n 57)%bool then Some (Z.of_nat n - 48) else None.

Fixpoint digits_value (s : string) (acc : Z) : option Z :=
  match s with
  | EmptyString => Some acc
  | String c s' =>
      match digit_value c with
      | Some d => digits_value s' (10 * acc + d)
      | None => None
      end
  end.

Definition unsigned (s : string) : option Z :=
  match s with
  | EmptyString => None
  | _ => digits_value s 0
  end.

(** [int(s)] for a string: [None] stands for [ValueError]. *)
Definition int (s : string) : option Z :=
  match strip s with
  | String "-" s' => Z.opp <$> unsigned s'
  | String "+" s' => unsigned s'
  | s' => unsigned s'
  end.

Fixpoint is_ascii (s : string) : bool :=
  match s with
  | EmptyString => true
  | String c s' => (Nat.ltb (nat_of_ascii c) 128 && is_ascii s')%bool
  end.

(** [repr(ex)] and [str(ex)]. *)
Definition repr (e : exn) : string :=
  match e with
  | UnboundLocalError name => "UnboundLocalError(" +:+ name +:+ ")"
  | KeyError key => "KeyError(" +:+ key +:+ ")"
  | TypeError => "TypeError()"
  | ValueError what => "ValueError(" +:+ what +:+ ")"
  | UnicodeEncodeError => "UnicodeEncodeError()"
  | IOError what => "IOError(" +:+ what +:+ ")"
  end.

Definition str (e : exn) : string :=
  match e with
  | UnboundLocalError name => name
  | KeyError key => key
  | TypeError => ""
  | ValueError what => what
  | UnicodeEncodeError => "ordinal not in range(128)"
  | IOError what => what
  end.

(** [s.encode('ASCII')] *)
Definition encode (s : string) : result string :=
  if is_ascii s then Ok s else Raise UnicodeEncodeError.

(** [str.format] with the keywords of a mapping [d] of strings, for
    a format string [t] made of text and of fields [{key:s}]. *)
Inductive piece : Type :=
  | Lit (text : string)
  | Field (key : string).

(** The value of a key, or the empty string. *)
Definition val (d : gmap string string) (key : string) : string :=
  default EmptyString (d !! key).

Definition keys (t : list piece) : list string :=
  List.concat (List.map (fun p => match p with Lit _ => [] | Field k => [k] end) t).

(** The text of a format, its fields filled in. *)
Fixpoint fill (d : gmap string string) (t : list piece) : string :=
  match t with
  | [] => EmptyString
  | Lit text :: t' => text +:+ fill d t'
  | Field key :: t' => val d key +:+ fill d t'
  end.

Definition plain (t : list piece) : bool :=
  forallb (fun p => match p with Lit text => is_ascii text | Field _ => true end) t.

Fixpoint format (t : list piece) (d : gmap string string) : result string :=
  match t with
  | [] => Ok EmptyString
  | Lit text :: t' => let! rest := format t' d in Ok (text +:+ rest)
  | Field key :: t' =>
      match d !! key with
      | None => Raise (KeyError key)
      | Some v => let! rest := format t' d in Ok (v +:+ rest)
      end
  end.

End Py.

(** ** The reading store

    [pywws.DataStore] is not among the sources.  The spec gives its
    contract: an ordered, time-indexed sequence of readings with a
    nearest-timestamp lookup (the stored timestamp closest to an
    instant, the earlier one on a tie) and a half-open, ascending
    range iteration.  As the callers use it, [nearest] returns a
    timestamp and indexing by a timestamp returns the reading stored
    there. *)

Module DataStore.

Record reading : Type := {
  idx : Z;
  temp_out : option Z;
  hum_out : option Z;
  rain : Z;
  wind_ave : option Z;
  wind_gust : option Z;
  wind_dir : option Z;
  abs_pressure : Z
}.

Definition store : Type := list reading.

(** Timestamps strictly ascending. *)
Definition ascending (s : store) : Prop :=
  StronglySorted (fun a b => idx a < idx b) s.

(** Modelled from the spec: [DataStore.after], not among the sources.
    The first stored timestamp at or after [t]. *)
Fixpoint after (s : store) (t : Z) : option Z :=
  match s with
  | [] => None
  | r :: s' => if t <=? idx r then Some (idx r) else after s' t
  end.

(** Modelled from the spec: [DataStore.before], not among the sources.
    The last stored timestamp before [t]. *)
Fixpoint before (s : store) (t : Z) : option Z :=
  match s with
  | [] => None
  | r :: s' =>
      if idx r <? t then
        match before s' t with
        | Some b => Some b
        | None => Some (idx r)
        end
      else None
  end.

(** Modelled from the spec: [DataStore.nearest], not among the sources.
    The stored timestamp closest to [t], the earlier one on a tie;
    [None] for an empty store. *)
Definition nearest (s : store) (t : Z) : option Z :=
  match after s t, before s t with
  | None, lo => lo
  | hi, None => hi
  | Some hi, Some lo => if Z.abs (hi - t) <? Z.abs (lo - t) then Some hi else Some lo
  end.

(** Modelled from the spec: indexing of [DataStore], not among the
    sources.  [calib_data[t]] for a timestamp (or [None]) [t]. *)
Definition getitem (s : store) (t : option Z) : result reading :=
  match t with
  | None => Raise TypeError
  | Some t =>
      match List.find (fun r => idx r =? t) s with
      | Some r => Ok r
      | None => Raise (KeyError "idx")
      end
  end.

(** Modelled from the spec: slicing of [DataStore], not among the
    sources.  [calib_data[a:b]]: readings with [a <= idx < b],
    ascending. *)
Definition slice (s : store) (a b : Z) : list reading :=
  List.filter (fun r => (a <=? idx r) && (idx r <? b)) s.

End DataStore.

Import DataStore.

(** ** scripts/bulk_metoffice_generator.py *)

Module Bulk.

Definition HOUR : Z := timedelta_hours 1.
Definition DAY : Z := timedelta_hours 24.
Definition REPORTS_MAXIMUM_FREQUENCY : Z := timedelta_minutes 3.

Definition FIELDS : list string :=
  ["Id"; "Report Date / Time"; "Concrete Temp."; "Day of Gales";
   "Soil Temp. (at 10cm)"; "Wet Bulb"; "Soil Temp. (at 30cm)";
   "Max. Temp. (last 24hr)"; "Total Cloud Cover"; "Wind Gust";
   "Day of Hail"; "Wind Gust Direction"; "Present Weather";
   "Ground State"; "Soil Temp. (at 100cm)"; "Grass Temp."; "Sunshine";
   "Day of Snow"; "Mean Sea-Level Pressure"; "Pressure (At Station)";
   "Relative Humidity"; "Weather Diary"; "Rainfall Accumulation";
   "Visibility"; "Min. Temp. (last 24hr)"; "Wind Direction"; "Wind Speed";
   "Air Temperature"; "Snow Depth"; "Soil Moisture"; "Dew Point";
   "Day of Thunder"; "Rainfall Rate"; "Flood Impacts"; "Wind Impacts";
   "Coastal Impacts"; "Wild Fire Impacts"; "Land Slide Impacts";
   "Poor Visibility Impacts"; "Snow Impacts"; "Ice Impacts";
   "Lightning Impacts"; "Other Impacts"]%string.

(** *** max_temp24 *)

Definition max_temp24 (calib_data : store) (report : reading) : result (option Z) :=
  let! start := getitem calib_data (nearest calib_data (idx report - DAY)) in
  let max_temp := temp_out report in
  Ok (fold_left (fun max_temp r => Py.max max_temp (temp_out r))
        (slice calib_data (idx start) (idx report)) max_temp).

(** The scan of the loop, by itself. *)
Definition scan (l : list reading) (seed : option Z) : option Z :=
  fold_left (fun max_temp r => Py.max max_temp (temp_out r)) l seed.


(** The readings of a store stamped within [a, b], both ends included. *)
Definition window (s : store) (a b : Z) : list reading :=
  List.filter (fun r => (a <=? idx r) && (idx r <=? b)) s.

(** [m] is the largest [temp_out] among [l]. *)
Definition max_of (l : list reading) (m : option Z) : Prop :=
  (forall r, In r l -> Py.le (temp_out r) m) /\ (exists r, In r l /\ temp_out r = m).


(** *** rain_day

    The local variable [rain_midnight] is unbound, bound to [None] or
    bound to a number.  [now_midnight] is what the first statement
    computes from the clock: the local midnight of the current day,
    as a naive UTC datetime.  The function also reports the
    timestamps it asked [calib_data.nearest] for. *)

Inductive local (A : Type) : Type :=
  | Unbound
  | Bound (a : A).
Arguments Unbound {A}.
Arguments Bound {A} a.

(** [while report['idx'] < midnight: midnight -= DAY; rain_midnight = None] *)
Fixpoint rewind (fuel : nat) (at_ : Z) (midnight : Z) (rain_midnight : local (option Z))
  : Z * local (option Z) :=
  match fuel with
  | O => (midnight, rain_midnight)
  | S fuel' =>
      if at_ <? midnight then rewind fuel' at_ (midnight - DAY) (Bound None)
      else (midnight, rain_midnight)
  end.

(** [while report['idx'] >= midnight + DAY: midnight += DAY; rain_midnight = None] *)
Fixpoint forward (fuel : nat) (at_ : Z) (midnight : Z) (rain_midnight : local (option Z))
  : Z * local (option Z) :=
  match fuel with
  | O => (midnight, rain_midnight)
  | S fuel' =>
      if midnight + DAY <=? at_ then forward fuel' at_ (midnight + DAY) (Bound None)
      else (midnight, rain_midnight)
  end.

(** Iterations that suffice for either loop. *)
Definition days_between (a b : Z) : nat := S (Z.to_nat (Z.abs (a - b) / DAY)).

Definition rain_day (now_midnight : Z) (calib_data : store) (report : reading)
  : result Z * list Z :=
  let midnight := now_midnight in
  let '(midnight, rain_midnight) :=
    rewind (days_between (idx report) midnight) (idx report) midnight Unbound in
  let '(midnight, rain_midnight) :=
    forward (days_between (idx report) midnight) (idx report) midnight rain_midnight in
  match rain_midnight with
  | Unbound => (Raise (UnboundLocalError "rain_midnight"), [])
  | Bound (Some rain_midnight) => (Ok (Z.max 0 (rain report - rain_midnight)), [])
  | Bound None =>
      (let! r := getitem calib_data (nearest calib_data midnight) in
       let rain_midnight := rain r in
       Ok (Z.max 0 (rain report - rain_midnight)),
       [midnight])
  end.

(** The midnight the two loops arrive at: the one of the day that
    holds [at_], in steps of 24 h from [now_midnight]. *)
Definition local_midnight (now_midnight at_ : Z) : Z :=
  now_midnight + DAY * ((at_ - now_midnight) / DAY).

(** Successive calls, as [GenerateBulk] makes them: the results, and
    all the timestamps looked up in the store. *)
Definition rain_day_calls (now_midnight : Z) (calib_data : store)
  (reports : list reading) : list (result Z) * list Z :=
  let calls := List.map (rain_day now_midnight calib_data) reports in
  (List.map fst calls, List.concat (List.map snd calls)).

(** *** The hourly rate: the argument of [safe_format] for the key
    ['Rainfall Rate'] in [GenerateBulk]. *)
Definition rain_rate (calib_data : store) (report : reading) : result Z :=
  let! hour_ago := getitem calib_data (nearest calib_data (idx report - HOUR)) in
  Ok (Z.max 0 (rain report - rain hour_ago)).

(** *** safe_format *)

Inductive format : Type :=
  | F2f   (* "%.2f" *)
  | Fd.   (* "%d" *)

Definition pymod (f : format) (x : Z) : string :=
  match f with
  | F2f => Py.fmt_2f x
  | Fd => Py.fmt_d x
  end.

Definition safe_format (f : format) (value : option Z) : option string :=
  if Py.truthy value then pymod f <$> value else None.

(** *** GenerateBulk *)

(** A value stored in a csv row: [None], a string or an int. *)
Inductive pyobj : Type :=
  | PNone
  | PStr (s : string)
  | PInt (n : Z).

Definition of_formatted (o : option string) : pyobj :=
  match o with
  | Some s => PStr s
  | None => PNone
  end.

Definition of_int (o : option Z) : pyobj :=
  match o with
  | Some n => PInt n
  | None => PNone
  end.

(** What [csv.DictWriter] writes for a key of the row: the empty
    string for a key that is absent and for [None]. *)
Definition csv_field (o : option pyobj) : string :=
  match o with
  | None => ""
  | Some PNone => ""
  | Some (PStr s) => s
  | Some (PInt n) => Py.str_int n
  end.

Definition writerow (csv_report : gmap string pyobj) : list string :=
  List.map (fun k => csv_field (csv_report !! k)) FIELDS.

(** 1900-01-01 00:00:00; Python 2 [strftime] refuses earlier years. *)
Definition datetime_1900 : Z := 693595 * DAY.

Definition datetime_max : Z := 3652059 * DAY - 1.

Section Generate.

(** The calendar rendering of ['%d/%m/%Y %H:%M'], the conversions
    of [pywws.conversions] and the local midnight of the day of the
    run are taken as given. *)
Variable render_date : Z -> string.
Variable dew_point : option Z -> option Z -> option Z.
Variable winddir_degrees : option Z -> option Z.
Variable now_midnight : Z.

Definition strftime (t : Z) : result string :=
  if t <? datetime_1900 then Raise (ValueError "year is before 1900")
  else Ok (render_date t).

(** The body of the loop after the interval test, up to the row
    handed to [csv_writer.writerow]. *)
Definition csv_report (calib_data : store) (report : reading)
  : result (gmap string pyobj) :=
  let csv_report : gmap string pyobj := ∅ in
  let! date := strftime (idx report) in
  let csv_report := <["Report Date / Time" := PStr date]> csv_report in
  let! max_temp := max_temp24 calib_data report in
  let csv_report :=
    <["Max. Temp. (last 24hr)" := of_formatted (safe_format F2f max_temp)]> csv_report in
  let csv_report :=
    <["Air Temperature" := of_formatted (safe_format F2f (temp_out report))]> csv_report in
  let csv_report :=
    <["Dew Point" :=
        of_formatted (safe_format F2f (dew_point (temp_out report) (hum_out report)))]>
      csv_report in
  let! rate := rain_rate calib_data report in
  let csv_report :=
    <["Rainfall Rate" := of_formatted (safe_format F2f (Some rate))]> csv_report in
  let! rain_today := fst (rain_day now_midnight calib_data report) in
  let csv_report :=
    <["Rainfall Accumulation" := of_formatted (safe_format F2f (Some rain_today))]>
      csv_report in
  let csv_report :=
    <["Wind Speed" := of_formatted (safe_format F2f (wind_ave report))]> csv_report in
  let csv_report :=
    <["Wind Gust" := of_formatted (safe_format F2f (wind_gust report))]> csv_report in
  let csv_report :=
    <["Wind Direction" :=
        of_formatted (safe_format Fd (winddir_degrees (wind_dir report)))]> csv_report in
  let csv_report := <["Relative Humidity" := of_int (hum_out report)]> csv_report in
  let csv_report :=
    <["Pressure (At Station)" := PStr (Py.fmt_2f (abs_pressure report))]> csv_report in
  Ok csv_report.

(** The loop of [GenerateBulk] over the readings still to visit.
    The result lists the rows written, each with the reading it was
    made for, and tells how the loop ended. *)
Fixpoint bulk_loop (calib_data : store) (prev_idx : Z) (reports : list reading)
  : list (reading * gmap string pyobj) * result unit :=
  match reports with
  | [] => ([], Ok tt)
  | report :: reports' =>
      if idx report - prev_idx <? REPORTS_MAXIMUM_FREQUENCY then
        bulk_loop calib_data prev_idx reports'
      else
        match csv_report calib_data report with
        | Raise e => ([], Raise e)
        | Ok row =>
            let '(rows, out) := bulk_loop calib_data (idx report) reports' in
            ((report, row) :: rows, out)
        end
  end.

Definition GenerateBulk (calib_data : store)
  : list (reading * gmap string pyobj) * result Z :=
  let start := datetime_min in
  let stop := datetime_max in
  let prev_idx := datetime_min in
  let '(rows, out) := bulk_loop calib_data prev_idx (slice calib_data start stop) in
  (rows, let! _u := out in Ok 0).

End Generate.

(** [b] is stamped at least the minimum interval after [a]. *)
Definition apart (a b : reading) : Prop :=
  idx a + REPORTS_MAXIMUM_FREQUENCY <= idx b.

(** The readings the interval test lets through, by itself. *)
Fixpoint dedupe (prev_idx : Z) (reports : list reading) : list reading :=
  match reports with
  | [] => []
  | report :: reports' =>
      if idx report - prev_idx <? REPORTS_MAXIMUM_FREQUENCY then dedupe prev_idx reports'
      else report :: dedupe (idx report) reports'
  end.

End Bulk.

(** ** Templates

    The template engine ([pywws.Template]) and the helpers the CWOP
    template calls ([max_dec_length], [latitude_loran], the unit
    conversions) are not among the sources.  The spec's FieldTemplate
    resolves one reading, with the derived values supplied to it, into
    a mapping of formatted strings: for every field that applies, the
    value selected is rendered with the declared format, or, when it
    is missing or fails the declared validity check, replaced by the
    fallback sentinel.  The format is applied with Python's [%], which
    raises on what it cannot format.  Values reach [resolve] after
    unit conversion, under the key of the field.
    A sentinel is kept as the string it stands for in the mapping,
    without the quotes and the comma of the template text. *)

Module Template.

Inductive value : Type :=
  | VInt (n : Z)
  | VStr (s : string)
  | VTime (day hour minute : Z).

Inductive format : Type :=
  | FTime             (* '%d%H%M' *)
  | FStr              (* '%s' *)
  | FPad (w : nat).   (* '%0wd' *)

(** What a check gives the format: its value, or, for a check written
    with a trailing comma ([max_dec_length(x, 3),]), the 1-tuple of its
    value, which is a tuple also when the value is [None]. *)
Inductive checked : Type :=
  | Plain (v : value)
  | Tuple1 (x : option Z).

Record FieldSpec : Type := {
  name : string;
  fmt : format;
  fallback : string;
  check : value -> option checked
}.





(** Modelled from the spec: [max_dec_length], not among the sources.
    The validity check the template declares as
    [max_dec_length(x, n)]: at most [n] decimal digits. *)
Definition max_dec_length (x : Z) (n : nat) : option Z :=
  if Z.abs x <? 10 ^ Z.of_nat n then Some x else None.

(** A check written as an expression of [x]: it fails when the
    expression is [None]. *)
Definition on_int (g : Z -> option Z) (v : value) : option checked :=
  match v with
  | VInt x => (fun y => Plain (VInt y)) <$> g x
  | _ => Some (Plain v)
  end.

(** A check written as an expression of [x] followed by a comma: the
    1-tuple of the expression, which is never [None]. *)
Definition tupled (g : Z -> option Z) (v : value) : option checked :=
  match v with
  | VInt x => Some (Tuple1 (g x))
  | _ => Some (Plain v)
  end.

End Template.

(** ** src/pywws/service/cwop.py

    Strings are the strings of Python 2, the version the script of
    this repository is written for: text and bytes concatenate. *)

Module Cwop.

Import Template.

Definition interval : Z := timedelta_seconds 290.

(** *** The template *)

Definition unchecked (name : string) (fmt : format) (fallback : string) : FieldSpec :=
  {| name := name; fmt := fmt; fallback := fallback; check := fun v => Some (Plain v) |}.

Definition digits3 (name : string) : FieldSpec :=
  {| name := name; fmt := FPad 3; fallback := "...";
     check := on_int (fun x => max_dec_length x 3) |}.

(** The same with the check ["max_dec_length(x, 3),"], comma included. *)
Definition digits3_tuple (name : string) : FieldSpec :=
  {| name := name; fmt := FPad 3; fallback := "...";
     check := tupled (fun x => max_dec_length x 3) |}.

Definition template : list FieldSpec :=
  [ unchecked "idx" FTime "";
    unchecked "lat_loran" FStr "c";
    unchecked "lon_loran" FStr "c";
    digits3 "wind_dir";
    digits3 "wind_ave";
    digits3 "wind_gust";
    {| name := "temp_out"; fmt := FPad 3; fallback := "...";
       check := on_int (fun x => if 0 <? x then max_dec_length x 3
                                 else max_dec_length x 2) |};
    {| name := "hum_out"; fmt := FPad 2; fallback := "..";
       check := on_int (fun x => Some (x mod 100)) |};
    {| name := "rel_pressure"; fmt := FPad 5; fallback := ".....";
       check := on_int (fun x => max_dec_length x 5) |};
    digits3_tuple "rain_hour";
    digits3_tuple "rain_24hr";
    digits3_tuple "rain_day" ].

Definition template_3080 : list FieldSpec :=
  [ unchecked "illuminance_t" FStr "l";
    {| name := "illuminance"; fmt := FPad 3; fallback := "...";
       check := tupled (fun x => max_dec_length (if x <? 1000 then x else x - 1000) 3) |} ].

Definition template_altitude : list FieldSpec :=
  [ {| name := "altitude"; fmt := FPad 6; fallback := "";
       check := on_int (fun x => max_dec_length x 6) |} ].

(** What [__init__] reads: the station type of section [config] and
    the parameter [altitude] of section [cwop]. *)
Record params : Type := {
  ws_type : string;
  altitude : option string
}.

(** [self.template] once [__init__] has extended it. *)
Definition ToService_template (p : params) : list FieldSpec :=
  template
    ++ (if String.eqb (ws_type p) "3080" then template_3080 else [])
    ++ (match altitude p with
        | Some a => if (0 <? String.length a)%nat then template_altitude else []
        | None => []
        end).



(** *** The socket

    A socket keeps the calls made on it, the oldest first, and holds
    what each of the calls to come does: fail with an exception, or
    succeed (as every call does once the list is used up). *)

Inductive call : Type :=
  | Sendall (data : string)
  | Recv
  | Shutdown.

Record socket : Type := {
  calls : list call;
  script : list (option exn)
}.

Definition perform (c : call) (s : socket) : result unit * socket :=
  match script s with
  | Some e :: script' => (Raise e, {| calls := calls s ++ [c]; script := script' |})
  | None :: script' => (Ok tt, {| calls := calls s ++ [c]; script := script' |})
  | [] => (Ok tt, {| calls := calls s ++ [c]; script := [] |})
  end.

(** The first exception among the next [n] calls. *)
Fixpoint first_failure (n : nat) (script : list (option exn)) : option exn :=
  match n, script with
  | S n', Some e :: _ => Some e
  | S n', None :: script' => first_failure n' script'
  | _, _ => None
  end.

(** *** upload_data *)

Definition login_format : list Py.piece :=
  [Py.Lit "user "; Py.Field "designator"; Py.Lit " pass "; Py.Field "passcode";
   Py.Lit " vers pywws "; Py.Field "version"; Py.Lit Py.nl].

Definition packet_head : list Py.piece :=
  [Py.Field "designator"; Py.Lit ">APRS,TCPIP*:@"; Py.Field "idx";
   Py.Lit "z"; Py.Field "lat_loran"; Py.Lit "/"; Py.Field "lon_loran";
   Py.Lit "_"; Py.Field "wind_dir"; Py.Lit "/"; Py.Field "wind_ave";
   Py.Lit "g"; Py.Field "wind_gust"; Py.Lit "t"; Py.Field "temp_out"].

Definition packet_illuminance : list Py.piece :=
  [Py.Field "illuminance_t"; Py.Field "illuminance"].

Definition packet_rain_hour : list Py.piece :=
  [Py.Lit "r"; Py.Field "rain_hour"].

Definition packet_tail : list Py.piece :=
  [Py.Lit "p"; Py.Field "rain_24hr"; Py.Lit "P"; Py.Field "rain_day";
   Py.Lit "h"; Py.Field "hum_out"; Py.Lit "b"; Py.Field "rel_pressure";
   Py.Lit ".pywws-"; Py.Field "version"].

Definition packet_altitude : list Py.piece :=
  [Py.Lit " /A="; Py.Field "altitude"].

(** [self.context.params.get('config', 'ws type') == '3080' and
    not int(prepared_data['rain_hour'])] *)
Definition no_rain_on_3080 (ws_type : string) (prepared_data : gmap string string)
  : result bool :=
  if String.eqb ws_type "3080" then
    match prepared_data !! "rain_hour" with
    | None => Raise (KeyError "rain_hour")
    | Some s =>
        match Py.int s with
        | None => Raise (ValueError "invalid literal for int()")
        | Some n => Ok (n =? 0)
        end
    end
  else Ok false.

(** The keys both lines need in every case. *)
Definition required_keys : list string :=
  Py.keys login_format ++ Py.keys packet_head ++ Py.keys packet_rain_hour
    ++ Py.keys packet_tail.

(** The wire format, written out: the login line, and the status
    line, where [swap] tells that the illuminance stands in the place
    of the rain of the last hour. *)
Definition login_line (d : gmap string string) : string :=
  "user " +:+ Py.val d "designator" +:+ " pass " +:+ Py.val d "passcode"
    +:+ " vers pywws " +:+ Py.val d "version" +:+ Py.nl.

Definition status_line (d : gmap string string) (swap : bool) : string :=
  Py.val d "designator" +:+ ">APRS,TCPIP*:@" +:+ Py.val d "idx"
    +:+ "z" +:+ Py.val d "lat_loran" +:+ "/" +:+ Py.val d "lon_loran"
    +:+ "_" +:+ Py.val d "wind_dir" +:+ "/" +:+ Py.val d "wind_ave"
    +:+ "g" +:+ Py.val d "wind_gust" +:+ "t" +:+ Py.val d "temp_out"
    +:+ (if swap then Py.val d "illuminance_t" +:+ Py.val d "illuminance"
         else "r" +:+ Py.val d "rain_hour")
    +:+ "p" +:+ Py.val d "rain_24hr" +:+ "P" +:+ Py.val d "rain_day"
    +:+ "h" +:+ Py.val d "hum_out" +:+ "b" +:+ Py.val d "rel_pressure"
    +:+ ".pywws-" +:+ Py.val d "version"
    +:+ (if decide (is_Some (d !! "altitude")) then " /A=" +:+ Py.val d "altitude"
         else "")
    +:+ Py.nl.

(** The statements before [try]: the two lines to send. *)
Definition lines (ws_type : string) (prepared_data : gmap string string)
  : result (string * string) :=
  let! login := Py.format login_format prepared_data in
  let! login := Py.encode login in
  let packet := packet_head in
  let! swap := no_rain_on_3080 ws_type prepared_data in
  let packet := packet ++ (if swap then packet_illuminance else packet_rain_hour) in
  let packet := packet ++ packet_tail in
  let packet :=
    if decide (is_Some (prepared_data !! "altitude")) then packet ++ packet_altitude
    else packet in
  let! packet := Py.format packet prepared_data in
  let! packet := Py.encode packet in
  Ok (login, packet +:+ Py.nl).

(** The [try] block: the first call that fails ends it. *)
Definition transmit (session : socket) (login packet : string)
  : result unit * socket :=
  let '(r, session) := perform (Sendall login) session in
  match r with
  | Raise ex => (Raise ex, session)
  | Ok _ =>
      let '(r, session) := perform Recv session in
      match r with
      | Raise ex => (Raise ex, session)
      | Ok _ =>
          let '(r, session) := perform (Sendall packet) session in
          match r with
          | Raise ex => (Raise ex, session)
          | Ok _ => perform Shutdown session
          end
      end
  end.

Definition upload_data (ws_type : string) (session : socket)
  (prepared_data : gmap string string) : result (bool * string) * socket :=
  match lines ws_type prepared_data with
  | Raise e => (Raise e, session)
  | Ok (login, packet) =>
      match transmit session login packet with
      | (Raise ex, session) => (Ok (false, Py.repr ex), session)
      | (Ok _, session) => (Ok (true, "OK"%string), session)
      end
  end.

End Cwop.

(** ** src/pywws/service/openweathermap.py *)

Module OpenWeatherMap.

Definition service_name : string := "openweathermap".
Definition catchup : Z := 7.
Definition interval : Z := timedelta_seconds 40.

(** Modelled from the spec: the parameter store [context.params], not
    among the sources.  The local configuration ([weather.ini]) as a
    mapping: a value per section and key, read by [get] and written by
    [set]. *)
Definition context : Type := gmap (string * string) string.

Definition get (c : context) (section key : string) : option string :=
  c !! (section, key).

Definition get_default (c : context) (section key default : string) : string :=
  match get c section key with
  | Some v => v
  | None => default
  end.

Definition set (c : context) (section key value : string) : context :=
  <[(section, key) := value]> c.

(** [self.params]. *)
Record station_params : Type := {
  api_key : string;
  external_id : string;
  station_name : string;
  lat : string;
  long : string;
  alt : string
}.

(** The object, with [fixed_data['station_id']] as a field. *)
Record ToService : Type := {
  params : station_params;
  station_id : option string;
  ctx : context
}.

Definition init (c : context) : ToService :=
  {| params :=
       {| api_key := get_default c service_name "api key" "";
          external_id := get_default c service_name "external id" "";
          station_name := get_default c service_name "station name" "";
          lat := get_default c service_name "lat" "";
          long := get_default c service_name "long" "";
          alt := get_default c service_name "alt" "" |};
     station_id := get c service_name "station id";
     ctx := c |}.

(** What the server answers. *)
Record response : Type := {
  status_code : Z;
  text : string;
  json : result (gmap string string)
}.

Section Http.

(** Floats and their parsing by [float(s)] are taken as given;
    [None] stands for [ValueError]. *)
Variable float : Type.
Variable py_float : string -> option float.

(** The registration payload. *)
Record station : Type := {
  s_external_id : string;
  s_name : string;
  s_latitude : float;
  s_longitude : float;
  s_altitude : float
}.

Inductive payload : Type :=
  | Measurements (readings : list (gmap string Z))
  | Station (data : station).

Inductive request : Type :=
  | POST (url : string) (body : payload)
  | PUT (url : string) (body : payload).

(** A session answers a request with a response or an exception. *)
Definition session : Type := request -> result response.

Definition measurements_url : string :=
  "http://api.openweathermap.org/data/3.0/measurements".

Definition stations_url : string :=
  "http://api.openweathermap.org/data/3.0/stations".

(** *** upload_data *)

Definition upload_data (s : session) (prepared_data : gmap string Z)
  : result (bool * string) :=
  let url := measurements_url in
  match s (POST url (Measurements [prepared_data])) with
  | Raise ex => Ok (false, Py.str ex)
  | Ok rsp =>
      if negb (status_code rsp =? 204) then
        Ok (false,
            "http status: " +:+ Py.str_int (status_code rsp) +:+ " " +:+ text rsp)
      else Ok (true, "OK"%string)
  end.

(** *** register *)

Definition to_float (s : string) : result float :=
  match py_float s with
  | Some x => Ok x
  | None => Raise (ValueError "could not convert string to float")
  end.

Definition station_data (p : station_params) : result station :=
  let! latitude := to_float (lat p) in
  let! longitude := to_float (long p) in
  let! altitude := to_float (alt p) in
  Ok {| s_external_id := external_id p; s_name := station_name p;
        s_latitude := latitude; s_longitude := longitude;
        s_altitude := altitude |}.

Definition truthy (o : option string) : bool :=
  match o with
  | Some (String _ _) => true
  | _ => false
  end.

(** The outcome, the requests made and the configuration left. *)
Definition register (self : ToService) (s : session)
  : result unit * list request * context :=
  let url := stations_url in
  match station_data (params self) with
  | Raise e => (Raise e, [], ctx self)
  | Ok data =>
      if truthy (station_id self) then
        let url := url +:+ "/" +:+ default ""%string (station_id self) in
        let req := PUT url (Station data) in
        match s req with
        | Raise ex => (Ok tt, [req], ctx self)
        | Ok rsp =>
            match json rsp with
            | Raise e => (Raise e, [req], ctx self)
            | Ok rsp => (Ok tt, [req], ctx self)
            end
        end
      else
        let req := POST url (Station data) in
        match s req with
        | Raise ex => (Ok tt, [req], ctx self)
        | Ok rsp =>
            match json rsp with
            | Raise e => (Raise e, [req], ctx self)
            | Ok rsp =>
                match rsp !! "ID" with
                | None => (Raise (KeyError "ID"), [req], ctx self)
                | Some id => (Ok tt, [req], set (ctx self) service_name "station id" id)
                end
            end
        end
  end.

End Http.

End OpenWeatherMap.

(** ** The upload throttle

    [pywws.service], whose classes the two services extend and which
    decides when an upload is attempted, is not among the sources.
    The spec's throttling invariant is that an attempt to a
    destination begins only when the destination's [interval] has gone
    by since the previous attempt began, whatever that attempt's
    outcome.  A live reading event asks for an attempt at once,
    subject to that throttle. *)

Module Service.

(** When the previous attempt began, if there was one. *)
Definition state : Type := option Z.

(** Modelled from the spec: the throttle of [pywws.service], not among
    the sources.  An attempt may begin at [now] when there was none
    before or when [interval] has gone by since the last one began. *)
Definition due (interval : Z) (now : Z) (last_attempt : state) : bool :=
  match last_attempt with
  | None => true
  | Some t => interval <=? now - t
  end.

(** Modelled from the spec: the live path of [pywws.service], not
    among the sources.  The live events at the times [events];
    [upload] tells whether the attempt begun at a time succeeds.  The
    result lists the attempts begun, with their outcomes. *)
Fixpoint live (interval : Z) (upload : Z -> bool) (last_attempt : state)
  (events : list Z) : list (Z * bool) :=
  match events with
  | [] => []
  | now :: events' =>
      if due interval now last_attempt then
        (now, upload now) :: live interval upload (Some now) events'
      else live interval upload last_attempt events'
  end.

End Service.

(** ** src/pywws/service/cwop.py: session

    The connection, as the context manager [session] drives it around
    the body of a [with] statement.  What the socket is asked to do is
    kept in order; [close], the call of [closing] on the way out, is
    taken not to fail.  The passcode is the one of [fixed_data]. *)

Module CwopSession.

Inductive conn_call : Type :=
  | Settimeout (seconds : Z)
  | Connect (host : string) (port : Z)
  | Banner                      (* the [recv] that follows [connect] *)
  | Use (c : Cwop.call)         (* a call made by the body *)
  | Close.

Record conn : Type := {
  conn_calls : list conn_call;
  conn_script : list (option exn)
}.

Definition step (c : conn_call) (s : conn) : result unit * conn :=
  match conn_script s with
  | Some e :: script' =>
      (Raise e, {| conn_calls := conn_calls s ++ [c]; conn_script := script' |})
  | None :: script' =>
      (Ok tt, {| conn_calls := conn_calls s ++ [c]; conn_script := script' |})
  | [] => (Ok tt, {| conn_calls := conn_calls s ++ [c]; conn_script := [] |})
  end.

Definition close (s : conn) : conn :=
  {| conn_calls := conn_calls s ++ [Close]; conn_script := conn_script s |}.

(** [('rotate.aprs.net', 'cwop.aprs.net')[self.fixed_data['passcode'] == '-1']] *)
Definition server (passcode : string) : string :=
  if String.eqb passcode "-1" then "cwop.aprs.net" else "rotate.aprs.net".

(** [with self.session() as session: body(session)] *)
Definition session {A} (passcode : string)
  (body : Cwop.socket -> result A * Cwop.socket) (s : conn) : result A * conn :=
  let '(r, s) := step (Settimeout 20) s in
  match r with
  | Raise e => (Raise e, close s)
  | Ok _ =>
      let '(r, s) := step (Connect (server passcode) 14580) s in
      match r with
      | Raise e => (Raise e, close s)
      | Ok _ =>
          let '(r, s) := step Banner s in
          match r with
          | Raise e => (Raise e, close s)
          | Ok _ =>
              let '(r, inner) :=
                body {| Cwop.calls := []; Cwop.script := conn_script s |} in
              (r, close {| conn_calls := conn_calls s ++ List.map Use (Cwop.calls inner);
                           conn_script := Cwop.script inner |})
          end
      end
  end.

(** How many of the next [n] calls are made: all of them, or those up
    to the first one that fails. *)
Fixpoint attempted (n : nat) (script : list (option exn)) : nat :=
  match n, script with
  | O, _ => O
  | S n', Some e :: _ => 1%nat
  | S n', None :: script' => S (attempted n' script')
  | S n', [] => S n'
  end.

End CwopSession.

(** ** scripts/bulk_metoffice_generator.py: main

    [getopt.getopt] for the options of this script: the short options
    [hv] and the long options [help] and [verbose], none of which
    takes an argument.  [None] stands for [getopt.error]. *)

Module BulkMain.

Fixpoint prefix (p s : string) : bool :=
  match p, s with
  | EmptyString, _ => true
  | String a p', String b s' => (Ascii.eqb a b && prefix p' s')%bool
  | String _ _, EmptyString => false
  end.

(** The text before the first [=], and whether there is one. *)
Fixpoint split_eq (s : string) : string * bool :=
  match s with
  | EmptyString => (EmptyString, false)
  | String c s' =>
      if Ascii.eqb c "="%char then (EmptyString, true)
      else let '(name, eq) := split_eq s' in (String c name, eq)
  end.

(** [do_longs]: a unique prefix of a long option, without argument. *)
Definition do_longs (opt : string) : option (string * string) :=
  let '(name, has_arg) := split_eq opt in
  let possibilities :=
        List.filter (fun o => prefix name o) ["help"; "verbose"]%string in
  match possibilities with
  | [unique_match] =>
      if has_arg then None else Some ("--" +:+ unique_match, ""%string)
  | _ => None
  end.

(** [do_shorts]: every letter is an option of its own. *)
Fixpoint do_shorts (optstring : string) : option (list (string * string)) :=
  match optstring with
  | EmptyString => Some []
  | String c optstring' =>
      if (Ascii.eqb c "h"%char || Ascii.eqb c "v"%char)%bool then
        match do_shorts optstring' with
        | Some opts => Some ((String "-" (String c EmptyString), ""%string) :: opts)
        | None => None
        end
      else None
  end.

(** [args[0].startswith('-') and args[0] != '-'], and what follows the
    dash. *)
Definition after_dash (arg : string) : option string :=
  match arg with
  | String c rest =>
      if Ascii.eqb c "-"%char then
        match rest with
        | EmptyString => None
        | _ => Some rest
        end
      else None
  | EmptyString => None
  end.

(** One argument that begins with a dash, the dash taken off: a long
    option when another dash follows, short options otherwise. *)
Definition parse_option (rest : string) : option (list (string * string)) :=
  match after_dash rest with
  | Some opt =>
      match do_longs opt with
      | Some o => Some [o]
      | None => None
      end
  | None => do_shorts rest
  end.

Fixpoint getopt (args : list string) : option (list (string * string) * list string) :=
  match args with
  | [] => Some ([], [])
  | arg :: args' =>
      match after_dash arg with
      | None => Some ([], args)
      | Some rest =>
          if String.eqb rest "-" then Some ([], args')
          else
            match parse_option rest, getopt args' with
            | Some os, Some (opts, rest) => Some (os ++ opts, rest)
            | _, _ => None
            end
      end
  end.

(** The arguments [main] hands to [GenerateBulk], when it calls it. *)
Definition called (argv : list string) : option (string * string) :=
  match getopt (List.tl argv) with
  | Some (opts, [data_dir; out_file]) =>
      if existsb (fun o => (String.eqb (fst o) "-h" || String.eqb (fst o) "--help")%bool) opts
      then None else Some (data_dir, out_file)
  | _ => None
  end.

Definition is_help (o : string * string) : bool :=
  (String.eqb (fst o) "-h" || String.eqb (fst o) "--help")%bool.

(** The keys [GenerateBulk] puts in a row. *)
Definition written_keys : list string :=
  ["Report Date / Time"; "Max. Temp. (last 24hr)"; "Air Temperature"; "Dew Point";
   "Rainfall Rate"; "Rainfall Accumulation"; "Wind Speed"; "Wind Gust";
   "Wind Direction"; "Relative Humidity"; "Pressure (At Station)"]%string.

(** The reading is stamped within the local day of the run. *)
Definition today (now_midnight : Z) (r : reading) : bool :=
  (now_midnight <=? idx r) && (idx r <? now_midnight + Bulk.DAY).

Section Main.

(** [GenerateBulk], for a data directory and an output file. *)
Variable generate : string -> string -> result Z.

Definition main (argv : list string) : result Z :=
  match getopt (List.tl argv) with
  | None => Ok 1
  | Some (opts, args) =>
      if existsb is_help opts then Ok 0
      else
        match args with
        | [data_dir; out_file] => generate data_dir out_file
        | _ => Ok 2
        end
  end.

End Main.

End BulkMain.

(** ** src/pywws/service/openweathermap.py: the object after register *)

Module OpenWeatherMapObject.

Import OpenWeatherMap.

(** The object once [register] has returned: [register] assigns
    nothing to it, and the configuration is the one it left. *)
Definition after_register (float : Type) (py_float : string -> option float)
  (self : ToService) (s : session float) : ToService :=
  {| params := params self; station_id := station_id self;
     ctx := snd (register float py_float self s) |}.

End OpenWeatherMapObject.

(** ** Sample stores *)

Module Samples.

Import Bulk.

Definition reading_at (t : Z) (temp : Z) (rain_ : Z) : reading :=
  {| idx := t; temp_out := Some temp; hum_out := Some 50; rain := rain_;
     wind_ave := Some 0; wind_gust := None; wind_dir := None;
     abs_pressure := 10132 |}.

(** A store of two readings a day and a minute apart: 50.0 degrees
    first, then 10.0 degrees. *)
Definition two_days : store :=
  [reading_at 0 500 0; reading_at (DAY + timedelta_minutes 1) 100 0].

(** A day of 2013, and the run of the script one day later. *)
Definition day0 : Z := 735000 * DAY.

Definition one_day : store :=
  [reading_at (day0 + timedelta_hours 1) 100 3;
   reading_at (day0 + timedelta_hours 2) 100 9;
   reading_at (day0 + timedelta_hours 3) 100 12].


(** A calm hour without rain, wind from the north, at 0.0 degrees. *)
Definition calm : store :=
  [reading_at day0 100 3;
   {| idx := day0 + timedelta_hours 1; temp_out := Some 0; hum_out := Some 50;
      rain := 3; wind_ave := Some 0; wind_gust := Some 0; wind_dir := Some 0;
      abs_pressure := 10132 |}].



(** Prepared data of a station of type 3080 in an hour without rain. *)
Definition dry_hour : gmap string string :=
  list_to_map
    [("designator", "EW9999"); ("passcode", "-1"); ("version", "18.4.2");
     ("idx", "011230"); ("lat_loran", "5130.06N"); ("lon_loran", "00008.52E");
     ("wind_dir", "090"); ("wind_ave", "005"); ("wind_gust", "010");
     ("temp_out", "068"); ("hum_out", "50"); ("rel_pressure", "10132");
     ("rain_hour", "000"); ("rain_24hr", "012"); ("rain_day", "004");
     ("illuminance_t", "L"); ("illuminance", "123")]%string.

Definition fresh : Cwop.socket := {| Cwop.calls := []; Cwop.script := [] |}.

(** A configuration of OpenWeatherMap without a station id, floats
    read as integers, and a server that creates or updates a
    station. *)
Definition unregistered : OpenWeatherMap.context :=
  list_to_map
    [(("openweathermap", "api key"), "b1b15e88fa797225412429c1c50c122a1");
     (("openweathermap", "lat"), "51"); (("openweathermap", "long"), "0");
     (("openweathermap", "alt"), "10");
     (("openweathermap", "external id"), "SW1Aweather");
     (("openweathermap", "station name"), "Buck House")]%string.

Definition whole_float (s : string) : option Z := Py.int s.

Definition server : OpenWeatherMap.session Z :=
  fun req =>
    Ok {| OpenWeatherMap.status_code := 201; OpenWeatherMap.text := "";
          OpenWeatherMap.json :=
            Ok {[ "ID"%string := "583436dd9643a9000196b8d6"%string ]} |}.

(** A reading three days after [two_days]. *)
Definition later : reading := reading_at (4 * DAY) 700 0.

(** Stand-ins for what [GenerateBulk] takes as given. *)
Definition render_date (t : Z) : string := "13/05/2013 00:00".
Definition dew_point (temp hum : option Z) : option Z := None.
Definition winddir_degrees (pts : option Z) : option Z := (fun p => p * 225) <$> pts.

End Samples.

(** * Properties *)

(** ** The reading store *)

Module DataStoreFacts.

Lemma ascending_tail r s : ascending (r :: s) -> ascending s.
Proof. intros H. inversion H; assumption. Qed.

Lemma ascending_head r s x : ascending (r :: s) -> In x s -> idx r < idx x.
Proof.
  intros H Hin. inversion H as [| ? ? _ Hall]; subst.
  rewrite List.Forall_forall in Hall. auto.
Qed.

(** Two stored readings with one timestamp are one reading. *)
Lemma ascending_unique s : ascending s ->
  forall a b, In a s -> In b s -> idx a = idx b -> a = b.
Proof.
  induction s as [| r s IH]; intros Hs a b Ha Hb Heq; [destruct Ha |].
  destruct Ha as [-> | Ha], Hb as [-> | Hb]; trivial.
  - pose proof (ascending_head _ _ _ Hs Hb). lia.
  - pose proof (ascending_head _ _ _ Hs Ha). lia.
  - apply IH; eauto using ascending_tail.
Qed.

Lemma after_stored s t h : after s t = Some h ->
  t <= h /\ exists r, In r s /\ idx r = h.
Proof.
  induction s as [| r s IH]; simpl; [discriminate |].
  destruct (Z.leb_spec t (idx r)); intros E.
  - injection E as <-. eauto.
  - destruct (IH E) as (? & x & ? & ?). eauto.
Qed.

Lemma after_least s t h : ascending s -> after s t = Some h ->
  forall r, In r s -> t <= idx r -> h <= idx r.
Proof.
  induction s as [| x s IH]; simpl; [discriminate |].
  intros Hs E r Hin Hle. destruct (Z.leb_spec t (idx x)).
  - injection E as <-. destruct Hin as [-> | Hin]; [lia |].
    pose proof (ascending_head _ _ _ Hs Hin). lia.
  - destruct Hin as [-> | Hin]; [lia |].
    eapply IH; eauto using ascending_tail.
Qed.

Lemma after_none s t : after s t = None -> forall r, In r s -> idx r < t.
Proof.
  induction s as [| x s IH]; simpl; [intros _ r [] |].
  destruct (Z.leb_spec t (idx x)); [discriminate |].
  intros E r [-> | Hin]; auto.
Qed.

Lemma before_stored s t l : before s t = Some l ->
  l < t /\ exists r, In r s /\ idx r = l.
Proof.
  revert l. induction s as [| r s IH]; simpl; [discriminate |].
  intros l. destruct (Z.ltb_spec (idx r) t); [| discriminate].
  destruct (before s t) as [b |] eqn:Eb; intros E; injection E as <-.
  - destruct (IH _ eq_refl) as (? & x & ? & ?). eauto.
  - eauto.
Qed.

Lemma before_some s t r : In r s -> after s t = None -> is_Some (before s t).
Proof.
  destruct s as [| x s]; [intros [] |]. intros _ E. simpl.
  assert (idx x < t) as Hx by (eapply after_none; [exact E | now left]).
  destruct (Z.ltb_spec (idx x) t); [| lia].
  destruct (before s t); eauto.
Qed.

(** [nearest] answers with a stored timestamp as soon as the store
    is not empty, and no stored reading lies between the instant
    asked for and that timestamp. *)
Lemma nearest_stored s t x : In x s ->
  exists n r, nearest s t = Some n /\ In r s /\ idx r = n.
Proof.
  intros Hx. unfold nearest.
  destruct (after s t) as [h |] eqn:Eh.
  - destruct (after_stored _ _ _ Eh) as (_ & rh & ? & ?).
    destruct (before s t) as [l |] eqn:El; [| eauto].
    destruct (before_stored _ _ _ El) as (_ & rl & ? & ?).
    destruct (_ <? _); eauto.
  - destruct (before_some _ _ _ Hx Eh) as [l El]. rewrite El.
    destruct (before_stored _ _ _ El) as (_ & rl & ? & ?). eauto.
Qed.

Lemma nearest_no_gap s t n : ascending s -> nearest s t = Some n ->
  forall r, In r s -> t <= idx r -> n <= idx r.
Proof.
  intros Hs E r Hin Hle. unfold nearest in E.
  destruct (after s t) as [h |] eqn:Eh.
  - pose proof (after_least _ _ _ Hs Eh _ Hin Hle).
    destruct (before s t) as [l |] eqn:El.
    + destruct (before_stored _ _ _ El) as (? & _).
      destruct (_ <? _); injection E as <-; lia.
    + injection E as <-. lia.
  - pose proof (after_none _ _ Eh _ Hin). lia.
Qed.

Lemma getitem_stored s r : ascending s -> In r s -> getitem s (Some (idx r)) = Ok r.
Proof.
  intros Hs Hin. unfold getitem.
  destruct (List.find _ s) as [x |] eqn:E.
  - apply List.find_some in E as [Hx Heq]. apply Z.eqb_eq in Heq.
    f_equal. eapply ascending_unique; eauto.
  - eapply List.find_none in E; [| exact Hin]. simpl in E. lia.
Qed.

Lemma slice_In s a b r : In r (slice s a b) <-> In r s /\ a <= idx r < b.
Proof.
  unfold slice. rewrite List.filter_In, andb_true_iff, Z.leb_le, Z.ltb_lt. tauto.
Qed.

End DataStoreFacts.

(** ** scripts/bulk_metoffice_generator.py *)

Module BulkFacts.

Import DataStoreFacts Bulk Samples.

(** *** The order of [max] *)

Lemma le_refl a : Py.le a a.
Proof. destruct a; unfold Py.le; simpl; [apply Z.ltb_irrefl | reflexivity]. Qed.

Lemma le_trans a b c : Py.le a b -> Py.le b c -> Py.le a c.
Proof.
  unfold Py.le. destruct a, b, c; simpl; try congruence.
  rewrite !Z.ltb_ge. lia.
Qed.

Lemma max_le_l a b : Py.le a (Py.max a b).
Proof.
  unfold Py.max. destruct (Py.gt b a) eqn:E; [| apply le_refl].
  unfold Py.le. destruct a, b; simpl in *; try congruence.
  apply Z.ltb_lt in E. apply Z.ltb_ge. lia.
Qed.

Lemma max_le_r a b : Py.le b (Py.max a b).
Proof. unfold Py.max. destruct (Py.gt b a) eqn:E; [apply le_refl | exact E]. Qed.

Lemma max_cases a b : Py.max a b = a \/ Py.max a b = b.
Proof. unfold Py.max. destruct (Py.gt b a); auto. Qed.

(** *** max_temp24 *)

Lemma window_In s a b r : In r (window s a b) <-> In r s /\ a <= idx r <= b.
Proof.
  unfold window. rewrite List.filter_In, andb_true_iff, !Z.leb_le. tauto.
Qed.

Lemma scan_spec l : forall seed,
  Py.le seed (scan l seed)
  /\ (forall r, In r l -> Py.le (temp_out r) (scan l seed))
  /\ (scan l seed = seed \/ exists r, In r l /\ temp_out r = scan l seed).
Proof.
  induction l as [| x l IH]; intros seed; simpl.
  - split; [apply le_refl |]. split; [intros r [] | now left].
  - destruct (IH (Py.max seed (temp_out x))) as (Hseed & Hall & Hhit).
    split; [| split].
    + eapply le_trans; [apply max_le_l | exact Hseed].
    + intros r [<- | Hin]; [| auto].
      eapply le_trans; [apply max_le_r | exact Hseed].
    + destruct Hhit as [E | (r & Hin & E)]; [| eauto].
      destruct (max_cases seed (temp_out x)) as [E' | E'].
      * left. unfold scan in *. congruence.
      * right. exists x. split; [now left |]. unfold scan in *. congruence.
Qed.

(** What [max_temp24] returns, in full: it scans from the stored
    timestamp nearest to [at - 24h], so its result is the largest
    [temp_out] of the readings stamped from there to [at]. *)
Lemma max_temp24_scans calib_data report :
  ascending calib_data -> In report calib_data ->
  exists start,
    nearest calib_data (idx report - DAY) = Some start
    /\ start <= idx report
    /\ (forall r, In r calib_data -> idx report - DAY <= idx r -> start <= idx r)
    /\ max_temp24 calib_data report
       = Ok (scan (slice calib_data start (idx report)) (temp_out report)).
Proof.
  intros Hs Hin.
  destruct (nearest_stored calib_data (idx report - DAY) report Hin)
    as (n & r0 & En & Hr0 & <-).
  assert (forall r, In r calib_data -> idx report - DAY <= idx r -> idx r0 <= idx r)
    as Hgap by (eapply nearest_no_gap; eauto).
  exists (idx r0). split; [exact En |]. split; [| split; [exact Hgap |]].
  - apply Hgap; [exact Hin | unfold DAY, timedelta_hours, timedelta_minutes,
      timedelta_seconds; lia].
  - unfold max_temp24. rewrite En, (getitem_stored _ _ Hs Hr0). reflexivity.
Qed.

Ltac ascending_by_computation :=
  unfold ascending; repeat constructor; simpl; lia.

(** C1, as stated, fails: the reading nearest to [at - 24h] can be
    older than [at - 24h], and it is scanned all the same.  Here the
    only reading within [at - 24h, at] shows 10.0 degrees and
    [max_temp24] returns the 50.0 degrees of the reading 24 h 01 min
    back, which is not the largest value of the window. *)
Lemma max_temp24_not_window_max :
  let report := reading_at (DAY + timedelta_minutes 1) 100 0 in
  ascending two_days /\ In report two_days
  /\ window two_days (idx report - DAY) (idx report) = [report]
  /\ max_temp24 two_days report = Ok (Some 500)
  /\ ~ max_of (window two_days (idx report - DAY) (idx report)) (Some 500).
Proof.
  simpl. split; [ascending_by_computation |].
  split; [right; left; reflexivity |].
  split; [reflexivity |]. split; [reflexivity |].
  intros [_ (r & Hin & E)]. vm_compute in Hin.
  destruct Hin as [<- | []]. discriminate E.
Qed.

(** C1, amended: [max_temp24] returns the largest [temp_out] of the
    readings stamped from the stored timestamp nearest to [at - 24h]
    up to [at]; that value is at least the [temp_out] of every
    reading stamped within [at - 24h, at]. *)
Theorem max_temp24_spec calib_data report :
  ascending calib_data -> In report calib_data ->
  exists start m,
    nearest calib_data (idx report - DAY) = Some start
    /\ max_temp24 calib_data report = Ok m
    /\ max_of (window calib_data start (idx report)) m
    /\ (forall r, In r calib_data -> idx report - DAY <= idx r <= idx report ->
          Py.le (temp_out r) m).
Proof.
  intros Hs Hin.
  destruct (max_temp24_scans _ _ Hs Hin) as (start & En & Hle & Hgap & E).
  destruct (scan_spec (slice calib_data start (idx report)) (temp_out report))
    as (Hseed & Hall & Hhit).
  set (m := scan _ _) in *.
  assert (forall r, In r calib_data -> start <= idx r <= idx report ->
                    Py.le (temp_out r) m) as Hwin.
  { intros r Hr [Hlo Hhi]. destruct (Z.eq_dec (idx r) (idx report)) as [Heq | Hne].
    - rewrite (ascending_unique _ Hs _ _ Hr Hin Heq). exact Hseed.
    - apply Hall, slice_In. split; [exact Hr | lia]. }
  exists start, m. repeat split; trivial.
  - intros r Hr. apply window_In in Hr as [Hr Hb]. auto.
  - destruct Hhit as [-> | (r & Hr & Er)].
    + exists report. split; [| reflexivity]. apply window_In. split; [exact Hin | lia].
    + exists r. split; [| exact Er]. apply slice_In in Hr as [Hr Hb].
      apply window_In. split; [exact Hr | lia].
  - intros r Hr [Hlo Hhi]. apply Hwin; [exact Hr |]. split; [auto | exact Hhi].
Qed.

Lemma max_temp24_spec_witness :
  exists start m,
    nearest two_days (DAY + timedelta_minutes 1 - DAY) = Some start
    /\ max_temp24 two_days (reading_at (DAY + timedelta_minutes 1) 100 0) = Ok m
    /\ max_of (window two_days start (DAY + timedelta_minutes 1)) m
    /\ (forall r, In r two_days ->
          DAY + timedelta_minutes 1 - DAY <= idx r <= DAY + timedelta_minutes 1 ->
          Py.le (temp_out r) m).
Proof.
  apply (max_temp24_spec two_days (reading_at (DAY + timedelta_minutes 1) 100 0)).
  - ascending_by_computation.
  - right; left; reflexivity.
Defined.

(** *** rain_day *)

Lemma DAY_value : DAY = 86400000000.
Proof. reflexivity. Qed.

Lemma HOUR_value : HOUR = 3600000000.
Proof. reflexivity. Qed.

Ltac day_arith :=
  unfold local_midnight in *; rewrite ?DAY_value, ?HOUR_value in *;
  Z.div_mod_to_equations; lia.

Lemma local_midnight_holds now_midnight at_ :
  local_midnight now_midnight at_ <= at_ < local_midnight now_midnight at_ + DAY.
Proof. day_arith. Qed.

Lemma local_midnight_today now_midnight at_ :
  now_midnight <= at_ < now_midnight + DAY <-> local_midnight now_midnight at_ = now_midnight.
Proof. split; intros H; day_arith. Qed.

Lemma local_midnight_shift now_midnight at_ k :
  local_midnight (now_midnight + k * DAY) at_ = local_midnight now_midnight at_.
Proof.
  unfold local_midnight.
  replace (at_ - (now_midnight + k * DAY)) with (at_ - now_midnight + (- k) * DAY) by ring.
  rewrite Z.div_add by (rewrite DAY_value; lia). ring.
Qed.

Lemma rewind_stop fuel at_ midnight rm :
  midnight <= at_ -> rewind fuel at_ midnight rm = (midnight, rm).
Proof.
  intros H. destruct fuel; simpl; [reflexivity |].
  destruct (Z.ltb_spec at_ midnight); [lia | reflexivity].
Qed.

Lemma forward_stop fuel at_ midnight rm :
  at_ < midnight + DAY -> forward fuel at_ midnight rm = (midnight, rm).
Proof.
  intros H. destruct fuel; simpl; [reflexivity |].
  destruct (Z.leb_spec (midnight + DAY) at_); [lia | reflexivity].
Qed.

(** With enough iterations the first loop ends at the midnight of
    the day of the reading, and has assigned [None]. *)
Lemma rewind_runs fuel : forall at_ midnight rm,
  at_ < midnight -> midnight - at_ <= Z.of_nat fuel * DAY ->
  rewind fuel at_ midnight rm = (local_midnight midnight at_, Bound None).
Proof.
  induction fuel as [| fuel IH]; intros at_ midnight rm Hlt Hfuel.
  - simpl in Hfuel. lia.
  - simpl. destruct (Z.ltb_spec at_ midnight); [| lia].
    assert (local_midnight (midnight - DAY) at_ = local_midnight midnight at_) as <-
      by (rewrite <- (local_midnight_shift (midnight - DAY) at_ 1); f_equal; ring).
    destruct (Z_lt_le_dec at_ (midnight - DAY)) as [Hfar | Hnear].
    + apply IH; [exact Hfar | lia].
    + rewrite rewind_stop by exact Hnear. f_equal. symmetry.
      apply local_midnight_today. lia.
Qed.

Lemma forward_runs fuel : forall at_ midnight rm,
  midnight + DAY <= at_ -> at_ - midnight < Z.of_nat fuel * DAY ->
  forward fuel at_ midnight rm = (local_midnight midnight at_, Bound None).
Proof.
  induction fuel as [| fuel IH]; intros at_ midnight rm Hge Hfuel.
  - simpl in Hfuel. rewrite DAY_value in *. lia.
  - simpl. destruct (Z.leb_spec (midnight + DAY) at_); [| lia].
    assert (local_midnight (midnight + DAY) at_ = local_midnight midnight at_) as <-
      by (rewrite <- (local_midnight_shift midnight at_ 1); f_equal; ring).
    destruct (Z_le_gt_dec (midnight + DAY + DAY) at_) as [Hfar | Hnear].
    + apply IH; [exact Hfar | lia].
    + rewrite forward_stop by lia. f_equal. symmetry.
      apply local_midnight_today. lia.
Qed.

Lemma days_between_enough a b : Z.abs (a - b) < Z.of_nat (days_between a b) * DAY.
Proof.
  unfold days_between. rewrite Nat2Z.inj_succ, Z2Nat.id.
  - rewrite DAY_value. Z.div_mod_to_equations. lia.
  - apply Z.div_pos; [lia | rewrite DAY_value; lia].
Qed.

(** The two outcomes of [rain_day]. *)
Lemma rain_day_today now_midnight calib_data report :
  now_midnight <= idx report < now_midnight + DAY ->
  rain_day now_midnight calib_data report
  = (Raise (UnboundLocalError "rain_midnight"), []).
Proof.
  intros H. unfold rain_day.
  rewrite rewind_stop by lia. rewrite forward_stop by lia. reflexivity.
Qed.

Lemma rain_day_other_day now_midnight calib_data report :
  ~ (now_midnight <= idx report < now_midnight + DAY) ->
  rain_day now_midnight calib_data report
  = (let! r := getitem calib_data
                 (nearest calib_data (local_midnight now_midnight (idx report))) in
     Ok (Z.max 0 (rain report - rain r)),
     [local_midnight now_midnight (idx report)]).
Proof.
  intros H. unfold rain_day.
  pose proof (days_between_enough (idx report) now_midnight) as Hfuel.
  destruct (Z_lt_le_dec (idx report) now_midnight) as [Hpast | Hfuture].
  - rewrite rewind_runs by lia.
    rewrite forward_stop by apply local_midnight_holds. reflexivity.
  - rewrite rewind_stop by lia. rewrite forward_runs by lia. reflexivity.
Qed.

(** The reference reading is looked up on every call that gets as
    far as the subtraction: nothing is kept from one call to the
    next. *)
Lemma rain_day_calls_lookups now_midnight calib_data reports :
  Forall (fun report => ~ (now_midnight <= idx report < now_midnight + DAY)) reports ->
  snd (rain_day_calls now_midnight calib_data reports)
  = List.map (fun report => local_midnight now_midnight (idx report)) reports.
Proof.
  unfold rain_day_calls. simpl. induction 1 as [| report reports H _ IH]; simpl.
  - reflexivity.
  - rewrite rain_day_other_day by exact H. simpl. f_equal. exact IH.
Qed.

(** C2, on the code: three calls for three readings of one local
    day, made on the next day, look the midnight reading up three
    times, once per call; made on that same day, each of the calls
    stops on the unbound [rain_midnight] before any lookup. *)
Theorem rain_day_fetches_on_every_call :
  rain_day_calls (day0 + DAY) one_day one_day
  = ([Ok 0; Ok 6; Ok 9], [day0; day0; day0])
  /\ rain_day_calls day0 one_day one_day
     = ([Raise (UnboundLocalError "rain_midnight");
         Raise (UnboundLocalError "rain_midnight");
         Raise (UnboundLocalError "rain_midnight")], []).
Proof. split; vm_compute; reflexivity. Qed.

(** *** Clamping *)

Lemma lookup_reading calib_data t report :
  ascending calib_data -> In report calib_data ->
  exists ref, In ref calib_data /\ nearest calib_data t = Some (idx ref)
              /\ getitem calib_data (nearest calib_data t) = Ok ref.
Proof.
  intros Hs Hin.
  destruct (nearest_stored calib_data t report Hin) as (n & ref & En & Href & <-).
  exists ref. rewrite En. auto using getitem_stored.
Qed.

(** C3: the accumulation since midnight and the hourly rate are
    never negative.  Whatever [rain_day] returns is at least 0; for a
    reading of any day but the one of the run it returns the counter
    at the reading minus the counter at the reading nearest to the
    local midnight, and exactly 0 when that difference is negative.
    The hourly rate is always computed: the counter at the reading
    minus the counter at the reading nearest to one hour before, and
    exactly 0 when that difference is negative. *)
Theorem rain_never_negative now_midnight calib_data report :
  ascending calib_data -> In report calib_data ->
  (forall v, fst (rain_day now_midnight calib_data report) = Ok v -> 0 <= v)
  /\ (~ (now_midnight <= idx report < now_midnight + DAY) ->
      exists ref,
        In ref calib_data
        /\ nearest calib_data (local_midnight now_midnight (idx report)) = Some (idx ref)
        /\ fst (rain_day now_midnight calib_data report)
           = Ok (Z.max 0 (rain report - rain ref))
        /\ (rain report < rain ref ->
            fst (rain_day now_midnight calib_data report) = Ok 0))
  /\ (exists ref,
        In ref calib_data
        /\ nearest calib_data (idx report - HOUR) = Some (idx ref)
        /\ rain_rate calib_data report = Ok (Z.max 0 (rain report - rain ref))
        /\ 0 <= Z.max 0 (rain report - rain ref)
        /\ (rain report < rain ref -> rain_rate calib_data report = Ok 0)).
Proof.
  intros Hs Hin. split; [| split].
  - intros v.
    destruct (Z_le_gt_dec now_midnight (idx report)) as [Hlo | Hlo];
      [destruct (Z_lt_le_dec (idx report) (now_midnight + DAY)) as [Hhi | Hhi] |].
    + rewrite rain_day_today by lia. discriminate.
    + rewrite rain_day_other_day by lia. simpl.
      destruct (getitem _ _); simpl; [| discriminate].
      intros E. injection E as <-. lia.
    + rewrite rain_day_other_day by lia. simpl.
      destruct (getitem _ _); simpl; [| discriminate].
      intros E. injection E as <-. lia.
  - intros Hday. rewrite rain_day_other_day by exact Hday. simpl.
    destruct (lookup_reading calib_data (local_midnight now_midnight (idx report))
                report Hs Hin) as (ref & Href & En & Eg).
    exists ref. rewrite Eg. simpl. repeat split; trivial.
    intros Hreset. f_equal. lia.
  - destruct (lookup_reading calib_data (idx report - HOUR) report Hs Hin)
      as (ref & Href & En & Eg).
    exists ref. unfold rain_rate. rewrite Eg. simpl. repeat split; trivial; [lia |].
    intros Hreset. f_equal. lia.
Qed.

Lemma rain_never_negative_witness :
  (forall v, fst (rain_day (day0 + DAY) one_day
                    (reading_at (day0 + timedelta_hours 2) 100 9)) = Ok v -> 0 <= v)
  /\ (~ (day0 + DAY <= day0 + timedelta_hours 2 < day0 + DAY + DAY) ->
      exists ref,
        In ref one_day
        /\ nearest one_day (local_midnight (day0 + DAY) (day0 + timedelta_hours 2))
           = Some (idx ref)
        /\ fst (rain_day (day0 + DAY) one_day
                  (reading_at (day0 + timedelta_hours 2) 100 9))
           = Ok (Z.max 0 (9 - rain ref))
        /\ (9 < rain ref ->
            fst (rain_day (day0 + DAY) one_day
                   (reading_at (day0 + timedelta_hours 2) 100 9)) = Ok 0))
  /\ (exists ref,
        In ref one_day
        /\ nearest one_day (day0 + timedelta_hours 2 - HOUR) = Some (idx ref)
        /\ rain_rate one_day (reading_at (day0 + timedelta_hours 2) 100 9)
           = Ok (Z.max 0 (9 - rain ref))
        /\ 0 <= Z.max 0 (9 - rain ref)
        /\ (9 < rain ref ->
            rain_rate one_day (reading_at (day0 + timedelta_hours 2) 100 9) = Ok 0)).
Proof.
  apply (rain_never_negative (day0 + DAY) one_day
           (reading_at (day0 + timedelta_hours 2) 100 9)).
  - ascending_by_computation.
  - right; left; reflexivity.
Defined.

(** *** The interval test of GenerateBulk *)

Lemma dedupe_apart reports : forall prev_idx,
  Forall (fun r => prev_idx + REPORTS_MAXIMUM_FREQUENCY <= idx r) (dedupe prev_idx reports)
  /\ StronglySorted apart (dedupe prev_idx reports).
Proof.
  induction reports as [| report reports IH]; intros prev_idx; simpl.
  - split; constructor.
  - destruct (Z.ltb_spec (idx report - prev_idx) REPORTS_MAXIMUM_FREQUENCY).
    + apply IH.
    + destruct (IH (idx report)) as [Hall Hsorted]. split.
      * constructor; [lia |].
        eapply List.Forall_impl; [| exact Hall]. simpl.
        intros r Hr. unfold REPORTS_MAXIMUM_FREQUENCY, timedelta_minutes,
          timedelta_seconds in *. lia.
      * constructor; assumption.
Qed.


Section Generate.

Variable render_date : Z -> string.
Variable dew_point : option Z -> option Z -> option Z.
Variable winddir_degrees : option Z -> option Z.
Variable now_midnight : Z.

Local Abbreviation csv_report :=
  (Bulk.csv_report render_date dew_point winddir_degrees now_midnight).
Local Abbreviation bulk_loop :=
  (Bulk.bulk_loop render_date dew_point winddir_degrees now_midnight).

(** The rows written are the rows of the readings let through, in
    order, up to the first one whose row could not be made. *)
Lemma bulk_loop_rows calib_data reports : forall prev_idx,
  let rows := fst (bulk_loop calib_data prev_idx reports) in
  let out := snd (bulk_loop calib_data prev_idx reports) in
  List.map fst rows `prefix_of` dedupe prev_idx reports
  /\ (out = Ok tt -> List.map fst rows = dedupe prev_idx reports)
  /\ Forall (fun p => csv_report calib_data (fst p) = Ok (snd p)) rows.
Proof.
  induction reports as [| report reports IH]; intros prev_idx; simpl.
  - split; [reflexivity |]. split; [reflexivity | constructor].
  - destruct (_ <? _); [apply IH |].
    destruct (Bulk.csv_report _ _ _ _ calib_data report) as [row | e] eqn:Erow; simpl.
    + specialize (IH (idx report)).
      destruct (Bulk.bulk_loop _ _ _ _ calib_data (idx report) reports)
        as [rows out]. simpl in *.
      destruct IH as (Hpre & Hall & Hrows). split; [| split].
      * apply prefix_cons, Hpre.
      * intros E. f_equal. auto.
      * constructor; [exact Erow | exact Hrows].
    + split; [apply prefix_nil |]. split; [discriminate | constructor].
Qed.





(** The cells of a row, spelled out. *)
Lemma csv_report_cells calib_data report row :
  csv_report calib_data report = Ok row ->
  exists date max_temp rate rain_today,
    strftime render_date (idx report) = Ok date
    /\ max_temp24 calib_data report = Ok max_temp
    /\ rain_rate calib_data report = Ok rate
    /\ fst (rain_day now_midnight calib_data report) = Ok rain_today
    /\ row !! "Report Date / Time" = Some (PStr date)
    /\ row !! "Max. Temp. (last 24hr)" = Some (of_formatted (safe_format F2f max_temp))
    /\ row !! "Air Temperature"
       = Some (of_formatted (safe_format F2f (temp_out report)))
    /\ row !! "Rainfall Rate" = Some (of_formatted (safe_format F2f (Some rate)))
    /\ row !! "Rainfall Accumulation"
       = Some (of_formatted (safe_format F2f (Some rain_today)))
    /\ row !! "Wind Speed" = Some (of_formatted (safe_format F2f (wind_ave report)))
    /\ row !! "Wind Gust" = Some (of_formatted (safe_format F2f (wind_gust report)))
    /\ row !! "Wind Direction"
       = Some (of_formatted (safe_format Fd (winddir_degrees (wind_dir report)))).
Proof.
  unfold Bulk.csv_report.
  destruct (strftime _ _) as [date |]; simpl; [| discriminate].
  destruct (max_temp24 _ _) as [max_temp |]; simpl; [| discriminate].
  destruct (rain_rate _ _) as [rate |]; simpl; [| discriminate].
  destruct (fst (rain_day _ _ _)) as [rain_today |]; simpl; [| discriminate].
  intros E. injection E as <-.
  exists date, max_temp, rate, rain_today.
  repeat (split; [reflexivity |]).
  repeat (split; [by simplify_map_eq |]). by simplify_map_eq.
Qed.

(** C10: [safe_format] gives [None] for every value that is not
    truthy, the number zero included, and the format applied to the
    value otherwise; so, in a row of [GenerateBulk], a wind speed,
    gust, direction, temperature, rain rate or rain accumulation of
    zero is written as the empty field that a missing value
    gives. *)
Theorem safe_format_blanks_zero calib_data report row :
  csv_report calib_data report = Ok row ->
  (forall f value, Py.truthy value = false -> safe_format f value = None)
  /\ (forall f, safe_format f (Some 0) = safe_format f None)
  /\ (forall f x, x <> 0 -> safe_format f (Some x) = Some (pymod f x))
  /\ csv_field (Some (of_formatted None)) = ""%string
  /\ (wind_ave report = Some 0 \/ wind_ave report = None ->
      csv_field (row !! "Wind Speed") = ""%string)
  /\ (wind_gust report = Some 0 \/ wind_gust report = None ->
      csv_field (row !! "Wind Gust") = ""%string)
  /\ (winddir_degrees (wind_dir report) = Some 0
      \/ winddir_degrees (wind_dir report) = None ->
      csv_field (row !! "Wind Direction") = ""%string)
  /\ (temp_out report = Some 0 \/ temp_out report = None ->
      csv_field (row !! "Air Temperature") = ""%string)
  /\ (rain_rate calib_data report = Ok 0 ->
      csv_field (row !! "Rainfall Rate") = ""%string)
  /\ (fst (rain_day now_midnight calib_data report) = Ok 0 ->
      csv_field (row !! "Rainfall Accumulation") = ""%string).
Proof.
  intros Hrow.
  destruct (csv_report_cells _ _ _ Hrow)
    as (date & max_temp & rate & rain_today & _ & _ & Erate & Eday
        & _ & _ & Etemp & Hrate & Hday & Have & Hgust & Hdir).
  split; [intros f value H; unfold safe_format; now rewrite H |].
  split; [reflexivity |].
  split; [intros f x Hx; unfold safe_format; simpl;
          destruct (Z.eqb_spec x 0); [contradiction | reflexivity] |].
  split; [reflexivity |].
  repeat split.
  - rewrite Have. intros [-> | ->]; reflexivity.
  - rewrite Hgust. intros [-> | ->]; reflexivity.
  - rewrite Hdir. intros [-> | ->]; reflexivity.
  - rewrite Etemp. intros [-> | ->]; reflexivity.
  - rewrite Hrate, Erate. intros E. injection E as ->. reflexivity.
  - rewrite Hday, Eday. intros E. injection E as ->. reflexivity.
Qed.

End Generate.


(** [safe_format_blanks_zero] at the second reading of [calm]. *)
Lemma safe_format_blanks_zero_witness :
  match Bulk.csv_report render_date dew_point winddir_degrees (day0 + DAY) calm
          (List.nth 1 calm (reading_at 0 0 0)) with
  | Ok row =>
      csv_field (row !! "Wind Speed") = ""%string
      /\ csv_field (row !! "Wind Direction") = ""%string
      /\ csv_field (row !! "Air Temperature") = ""%string
      /\ csv_field (row !! "Rainfall Rate") = ""%string
  | Raise _ => False
  end.
Proof.
  assert (succeeded (Bulk.csv_report render_date dew_point winddir_degrees (day0 + DAY)
                       calm (List.nth 1 calm (reading_at 0 0 0))) = true) as Hok
    by (vm_compute; reflexivity).
  destruct (Bulk.csv_report _ _ _ _ _ _) as [row | e] eqn:Hrow; [| discriminate Hok].
  destruct (safe_format_blanks_zero render_date dew_point winddir_degrees
              (day0 + DAY) calm (List.nth 1 calm (reading_at 0 0 0)) row Hrow)
    as (_ & _ & _ & _ & Have & _ & Hdir & Htemp & Hrate & _).
  split; [apply Have; left; reflexivity |].
  split; [apply Hdir; left; reflexivity |].
  split; [apply Htemp; left; reflexivity |].
  apply Hrate. vm_compute. reflexivity.
Defined.

End BulkFacts.

(** ** Formats *)

Module PyFacts.







End PyFacts.

(** ** src/pywws/service/cwop.py: the template *)

Module TemplateFacts.

Import Template Cwop PyFacts.

















End TemplateFacts.

(** ** src/pywws/service/cwop.py: upload_data *)

Module CwopFacts.

Import Cwop PyFacts.

Lemma rbind_ok {A B} (a : A) (k : A -> result B) : rbind (Ok a) k = k a.
Proof. reflexivity. Qed.

Lemma is_ascii_app s1 s2 :
  Py.is_ascii (s1 +:+ s2) = Py.is_ascii s1 && Py.is_ascii s2.
Proof.
  induction s1 as [| c s1 IH]; simpl; [reflexivity |].
  rewrite IH. apply andb_assoc.
Qed.

Lemma format_fill t d :
  Forall (fun key => is_Some (d !! key)) (Py.keys t) -> Py.format t d = Ok (Py.fill d t).
Proof.
  induction t as [| [text | key] t IH]; simpl; intros H.
  - reflexivity.
  - rewrite IH by exact H. reflexivity.
  - inversion H as [| ? ? [v Hv] Ht]; subst. unfold Py.val. rewrite Hv, IH by exact Ht.
    reflexivity.
Qed.

Lemma fill_ascii t d :
  Py.plain t = true -> map_Forall (fun _ v => Py.is_ascii v = true) d ->
  Py.is_ascii (Py.fill d t) = true.
Proof.
  intros Ht Hd. induction t as [| [text | key] t IH]; simpl in *.
  - reflexivity.
  - apply andb_true_iff in Ht as [Htext Ht]. rewrite is_ascii_app, Htext. auto.
  - rewrite is_ascii_app, IH by exact Ht. rewrite andb_true_r.
    unfold Py.val. destruct (d !! key) as [v |] eqn:E; [| reflexivity].
    exact (Hd _ _ E).
Qed.

(** The [try] block, by the first call that fails. *)
Lemma transmit_outcome session login packet :
  fst (transmit session login packet)
  = match first_failure 4 (script session) with
    | Some ex => Raise ex
    | None => Ok tt
    end.
Proof.
  destruct session as [calls0 script0]. unfold transmit, perform. simpl.
  destruct script0 as [| [e1 |] [| [e2 |] [| [e3 |] [| [e4 |] script0]]]]; reflexivity.
Qed.

Lemma transmit_calls calls0 login packet :
  transmit {| calls := calls0; script := [] |} login packet
  = (Ok tt, {| calls := calls0 ++ [Sendall login; Recv; Sendall packet; Shutdown];
               script := [] |}).
Proof.
  unfold transmit, perform. simpl. rewrite <- !app_assoc. reflexivity.
Qed.

Lemma append_assoc (a b c : string) : (a +:+ b) +:+ c = a +:+ (b +:+ c).
Proof.
  induction a as [| x a IH]; [reflexivity |].
  change (String x ((a +:+ b) +:+ c) = String x (a +:+ (b +:+ c))). now f_equal.
Qed.

Lemma append_nil_r (a : string) : a +:+ EmptyString = a.
Proof.
  induction a as [| x a IH]; [reflexivity |].
  change (String x (a +:+ EmptyString) = String x a). now f_equal.
Qed.

Lemma append_nil_l (a : string) : EmptyString +:+ a = a.
Proof. reflexivity. Qed.

Lemma Forall_keys_app (d : gmap string string) t1 t2 :
  Forall (fun key => is_Some (d !! key)) (Py.keys (t1 ++ t2))
  <-> Forall (fun key => is_Some (d !! key)) (Py.keys t1)
      /\ Forall (fun key => is_Some (d !! key)) (Py.keys t2).
Proof.
  unfold Py.keys. rewrite List.map_app, List.concat_app. apply Forall_app.
Qed.

(** The two lines, once the test on the rain of the last hour has
    given [swap]. *)
Lemma lines_of_swap ws_type (d : gmap string string) swap :
  Forall (fun key => is_Some (d !! key)) required_keys ->
  map_Forall (fun _ v => Py.is_ascii v = true) d ->
  no_rain_on_3080 ws_type d = Ok swap ->
  (swap = true -> is_Some (d !! "illuminance_t") /\ is_Some (d !! "illuminance")) ->
  lines ws_type d = Ok (login_line d, status_line d swap).
Proof.
  intros Hkeys Hascii Hswap Hlux.
  unfold required_keys in Hkeys. rewrite !Forall_app in Hkeys.
  destruct Hkeys as (Hlogin & Hhead & Hrain & Htail).
  unfold lines. cbv zeta.
  rewrite format_fill by exact Hlogin. rewrite rbind_ok.
  unfold Py.encode at 1. rewrite fill_ascii by (reflexivity || exact Hascii).
  rewrite rbind_ok, Hswap, rbind_ok.
  set (t := if decide _ then _ else _).
  assert (Forall (fun key => is_Some (d !! key)) (Py.keys t)) as Ht.
  { subst t. destruct swap, (decide (is_Some (d !! "altitude"))) as [Halt | Halt];
      rewrite !Forall_keys_app; repeat split; trivial;
      try (destruct (Hlux eq_refl); repeat constructor; assumption);
      repeat constructor; exact Halt. }
  assert (Py.plain t = true) as Hplain
    by (subst t; destruct swap, (decide _); reflexivity).
  rewrite format_fill by exact Ht. rewrite rbind_ok.
  unfold Py.encode. rewrite fill_ascii by assumption. rewrite rbind_ok.
  assert (Py.fill d login_format = login_line d) as ->
    by (unfold login_line; cbn [Py.fill login_format]; now rewrite append_nil_r).
  f_equal. f_equal. unfold status_line. subst t.
  destruct swap, (decide (is_Some (d !! "altitude")));
    cbn [Py.fill List.app packet_head packet_illuminance packet_rain_hour
           packet_tail packet_altitude];
    rewrite ?append_assoc, ?append_nil_r, ?append_nil_l; reflexivity.
Qed.

(** The two lines are not made when the test on the rain of the last
    hour raises. *)
Lemma lines_of_raise ws_type (d : gmap string string) e :
  Forall (fun key => is_Some (d !! key)) (Py.keys login_format) ->
  map_Forall (fun _ v => Py.is_ascii v = true) d ->
  no_rain_on_3080 ws_type d = Raise e ->
  lines ws_type d = Raise e.
Proof.
  intros Hlogin Hascii Hraise. unfold lines. cbv zeta.
  rewrite format_fill by exact Hlogin. rewrite rbind_ok.
  unfold Py.encode at 1. rewrite fill_ascii by (reflexivity || exact Hascii).
  rewrite rbind_ok, Hraise. reflexivity.
Qed.

(** The test on the rain of the last hour, when the key is there. *)
Lemma no_rain_on_3080_present ws_type (d : gmap string string) :
  is_Some (d !! "rain_hour") ->
  no_rain_on_3080 ws_type d
  = if String.eqb ws_type "3080" then
      match Py.int (Py.val d "rain_hour") with
      | None => Raise (ValueError "invalid literal for int()")
      | Some n => Ok (n =? 0)
      end
    else Ok false.
Proof.
  intros [s Hs]. unfold no_rain_on_3080, Py.val. rewrite Hs. reflexivity.
Qed.

(** C6, amended.  When the prepared data hold the keys of the two
    lines, in ASCII, [upload_data] does one of two things.  On a
    station of type 3080 whose rain of the last hour is not a number
    for [int], as the sentinel ['...'] is not, it raises [ValueError]
    and sends nothing.  In every other case it sends the login line
    and then one status line of the format given; in that line the
    rain of the last hour gives its place to the illuminance exactly
    when the station is of type 3080 and that rain is zero (the
    illuminance keys are then needed too), and the altitude suffix is
    there exactly when the prepared data hold an altitude. *)
Theorem upload_data_wire_format ws_type (d : gmap string string) calls0 :
  let session := {| calls := calls0; script := [] |} in
  let rain_hour := Py.int (Py.val d "rain_hour") in
  let swap := bool_decide (ws_type = "3080"%string /\ rain_hour = Some 0) in
  Forall (fun key => is_Some (d !! key)) required_keys ->
  map_Forall (fun _ v => Py.is_ascii v = true) d ->
  (swap = true -> is_Some (d !! "illuminance_t") /\ is_Some (d !! "illuminance")) ->
  (ws_type = "3080"%string /\ rain_hour = None ->
     lines ws_type d = Raise (ValueError "invalid literal for int()")
     /\ upload_data ws_type session d
        = (Raise (ValueError "invalid literal for int()"), session))
  /\ (ws_type <> "3080"%string \/ is_Some rain_hour ->
        lines ws_type d = Ok (login_line d, status_line d swap)
        /\ upload_data ws_type session d
           = (Ok (true, "OK"%string),
              {| calls := calls0 ++ [Sendall (login_line d); Recv;
                                     Sendall (status_line d swap); Shutdown];
                 script := [] |})).
Proof.
  intros session rain_hour swap Hkeys Hascii Hlux.
  assert (is_Some (d !! "rain_hour")) as Hrain.
  { unfold required_keys in Hkeys. rewrite !Forall_app in Hkeys.
    destruct Hkeys as (_ & _ & Hrain & _). now inversion Hrain. }
  assert (Forall (fun key => is_Some (d !! key)) (Py.keys login_format)) as Hlogin.
  { unfold required_keys in Hkeys. rewrite !Forall_app in Hkeys. tauto. }
  pose proof (no_rain_on_3080_present ws_type d Hrain) as Htest.
  fold rain_hour in Htest. split.
  - intros [Hws Hnone]. rewrite Hnone in Htest. subst ws_type.
    cbn [String.eqb Ascii.eqb Bool.eqb] in Htest.
    pose proof (lines_of_raise _ _ _ Hlogin Hascii Htest) as Hlines.
    split; [exact Hlines |]. unfold upload_data. now rewrite Hlines.
  - intros Hok.
    assert (no_rain_on_3080 ws_type d = Ok swap) as Hswap.
    { rewrite Htest. subst swap.
      destruct (String.eqb_spec ws_type "3080") as [Hws | Hws].
      - destruct Hok as [Hne | [n Hn]]; [contradiction |]. rewrite Hn. f_equal.
        destruct (Z.eqb_spec n 0) as [-> | Hn0]; symmetry.
        + now apply bool_decide_eq_true_2.
        + apply bool_decide_eq_false_2. intros [_ E]. congruence.
      - f_equal. symmetry. apply bool_decide_eq_false_2. tauto. }
    pose proof (lines_of_swap _ _ _ Hkeys Hascii Hswap Hlux) as Hlines.
    split; [exact Hlines |].
    unfold upload_data. subst session. rewrite Hlines, transmit_calls. reflexivity.
Qed.

Lemma upload_data_wire_format_witness :
  bool_decide ("3080"%string = "3080"%string
               /\ Py.int (Py.val Samples.dry_hour "rain_hour") = Some 0) = true
  /\ lines "3080" Samples.dry_hour
     = Ok (login_line Samples.dry_hour,
           status_line Samples.dry_hour
             (bool_decide ("3080"%string = "3080"%string
                           /\ Py.int (Py.val Samples.dry_hour "rain_hour") = Some 0)))
  /\ upload_data "3080" {| calls := []; script := [] |} Samples.dry_hour
     = (Ok (true, "OK"%string),
        {| calls :=
             [] ++ [Sendall (login_line Samples.dry_hour); Recv;
                    Sendall
                      (status_line Samples.dry_hour
                         (bool_decide
                            ("3080"%string = "3080"%string
                             /\ Py.int (Py.val Samples.dry_hour "rain_hour")
                                = Some 0)));
                    Shutdown];
           script := [] |}).
Proof.
  split; [vm_compute; reflexivity |].
  refine (proj2 (upload_data_wire_format "3080" Samples.dry_hour [] _ _ _) _).
  - repeat constructor; eexists; vm_compute; reflexivity.
  - apply (bool_decide_unpack _). vm_compute. exact I.
  - intros _. split; eexists; vm_compute; reflexivity.
  - right. eexists. vm_compute. reflexivity.
Defined.

(** C6, as stated, fails: for a station of type 3080 in an hour
    without rain, the status line sent carries the illuminance
    ([L123]) where the format of the claim has the rain of the last
    hour ([r000]); for a mapping without the keys of the lines, the
    empty one for instance, nothing is sent at all; and nothing is
    sent either for a station of type 3080 whose rain of the last hour
    is the sentinel ['...']. *)
Lemma illuminance_replaces_rain_hour :
  upload_data "3080" Samples.fresh Samples.dry_hour
  = (Ok (true, "OK"%string),
     {| calls :=
          [Sendall ("user EW9999 pass -1 vers pywws 18.4.2" +:+ Py.nl);
           Recv;
           Sendall ("EW9999>APRS,TCPIP*:@011230z5130.06N/00008.52E"
                      +:+ "_090/005g010t068L123p012P004h50b10132.pywws-18.4.2"
                      +:+ Py.nl);
           Shutdown];
        script := [] |})
  /\ status_line Samples.dry_hour false
     = "EW9999>APRS,TCPIP*:@011230z5130.06N/00008.52E"
         +:+ "_090/005g010t068r000p012P004h50b10132.pywws-18.4.2" +:+ Py.nl
  /\ status_line Samples.dry_hour false
     <> "EW9999>APRS,TCPIP*:@011230z5130.06N/00008.52E"
          +:+ "_090/005g010t068L123p012P004h50b10132.pywws-18.4.2" +:+ Py.nl
  /\ calls (snd (upload_data "1080" Samples.fresh ∅)) = []
  /\ calls (snd (upload_data "3080" Samples.fresh
                   (<["rain_hour" := "..."%string]> Samples.dry_hour))) = [].
Proof.
  split; [vm_compute; reflexivity |]. split; [vm_compute; reflexivity |].
  split; [vm_compute; discriminate |].
  split; vm_compute; reflexivity.
Qed.

(** C7, as stated, fails for CWOP: the two lines are made before the
    [try], and making them raises when a key is missing, as with the
    default argument, or when the rain of the last hour of a station
    of type 3080 is not a number. *)
Lemma upload_data_raises_on_missing_key :
  upload_data "1080" Samples.fresh ∅ = (Raise (KeyError "designator"), Samples.fresh)
  /\ upload_data "3080" Samples.fresh (<["rain_hour" := "..."%string]> Samples.dry_hour)
     = (Raise (ValueError "invalid literal for int()"), Samples.fresh).
Proof. split; vm_compute; reflexivity. Qed.

End CwopFacts.

(** ** src/pywws/service/openweathermap.py *)

Module OpenWeatherMapFacts.

Import OpenWeatherMap.

Section Http.

Variable float : Type.
Variable py_float : string -> option float.

Local Abbreviation register := (register float py_float).
Local Abbreviation station_data := (station_data float py_float).

Lemma get_set_other c key value :
  key <> "station id"%string ->
  get (set c service_name "station id" value) service_name key
  = get c service_name key.
Proof.
  intros Hne. unfold get, set. apply lookup_insert_ne. congruence.
Qed.

(** Storing a station id leaves the parameters of the station as
    they were, and makes the id the one of the object. *)
Lemma init_set c id :
  params (init (set c service_name "station id" id)) = params (init c)
  /\ station_id (init (set c service_name "station id" id)) = Some id.
Proof.
  unfold init, get_default; simpl. rewrite !get_set_other by discriminate.
  split; [reflexivity |]. unfold get, set. apply lookup_insert_eq.
Qed.

(** With a station id: one PUT to that id, nothing stored. *)
Lemma register_update c (s : session float) data a id :
  station_data (params (init c)) = Ok data ->
  get c service_name "station id" = Some (String a id) ->
  snd (fst (register (init c) s))
  = [PUT float (stations_url +:+ "/" +:+ String a id) (Station float data)]
  /\ snd (register (init c) s) = c.
Proof.
  intros Hdata Hid. unfold OpenWeatherMap.register. rewrite Hdata.
  change (station_id (init c)) with (get c service_name "station id").
  rewrite Hid. simpl.
  destruct (s _) as [rsp | ex]; simpl; [| split; reflexivity].
  destruct (json rsp); split; reflexivity.
Qed.

(** Without a station id: one POST, and the id of the answer stored. *)
Lemma register_create c (s : session float) data :
  station_data (params (init c)) = Ok data ->
  truthy (station_id (init c)) = false ->
  register (init c) s
  = let req := POST float stations_url (Station float data) in
    match s req with
    | Raise ex => (Ok tt, [req], c)
    | Ok rsp =>
        match json rsp with
        | Raise e => (Raise e, [req], c)
        | Ok answer =>
            match answer !! "ID" with
            | None => (Raise (KeyError "ID"), [req], c)
            | Some id => (Ok tt, [req], set c service_name "station id" id)
            end
        end
    end.
Proof.
  intros Hdata Hid. unfold OpenWeatherMap.register. rewrite Hdata, Hid. reflexivity.
Qed.

(** C8: with a station id in the configuration, [register] makes
    one request, a PUT to that id, and leaves the configuration as
    it is; without one (none, or an empty one) it makes one
    request, a POST, and stores the id of the answer, when there is
    one, as the station id.  Registering again after that updates
    the station of the stored id in place and stores nothing. *)
Theorem register_reuses_or_creates c (s : session float) data :
  station_data (params (init c)) = Ok data ->
  let run := register (init c) s in
  let out := fst (fst run) in
  let requests := snd (fst run) in
  let c' := snd run in
  match get c service_name "station id" with
  | Some (String a id) =>
      requests = [PUT float (stations_url +:+ "/" +:+ String a id) (Station float data)]
      /\ c' = c
  | _ =>
      requests = [POST float stations_url (Station float data)]
      /\ match s (POST float stations_url (Station float data)) with
         | Raise ex => out = Ok tt /\ c' = c
         | Ok rsp =>
             match json rsp with
             | Raise e => out = Raise e /\ c' = c
             | Ok answer =>
                 match answer !! "ID" with
                 | None => out = Raise (KeyError "ID") /\ c' = c
                 | Some new_id =>
                     out = Ok tt
                     /\ c' = set c service_name "station id" new_id
                     /\ (new_id <> ""%string ->
                         let again := register (init c') s in
                         snd (fst again)
                         = [PUT float (stations_url +:+ "/" +:+ new_id)
                              (Station float data)]
                         /\ snd again = c')
                 end
             end
         end
  end.
Proof.
  intros Hdata run out requests c'.
  assert (forall new_id, new_id <> ""%string ->
            let again := register (init (set c service_name "station id" new_id)) s in
            snd (fst again)
            = [PUT float (stations_url +:+ "/" +:+ new_id) (Station float data)]
            /\ snd again = set c service_name "station id" new_id) as Hagain.
  { intros [| b new_id] Hne; [contradiction |].
    destruct (init_set c (String b new_id)) as [Hparams Hnew].
    apply register_update; [rewrite Hparams; exact Hdata | exact Hnew]. }
  destruct (get c service_name "station id") as [[| a id] |] eqn:Hid;
    [| apply register_update; assumption |].
  all: subst run out requests c'; rewrite (register_create _ _ _ Hdata)
         by (unfold truthy; change (station_id (init c))
               with (get c service_name "station id"); now rewrite Hid).
  all: cbv zeta; split; [destruct (s _) as [rsp | ex]; [destruct (json rsp) as [answer | e];
         [destruct (answer !! "ID") |] |]; reflexivity |].
  all: destruct (s _) as [rsp | ex]; [| split; reflexivity].
  all: destruct (json _) as [answer | e]; [| split; reflexivity].
  all: destruct (_ !! "ID") as [new_id |]; [| split; reflexivity].
  all: split; [reflexivity |]; split; [reflexivity |].
  all: apply Hagain.
Qed.

(** The OpenWeatherMap half of C7: [upload_data] always returns a
    pair; it is [(True, 'OK')] exactly when the server answers with
    status 204, the status and the text of the answer for any other
    status, and the text of the exception when the request
    raises. *)
Lemma upload_data_status (s : session float) prepared_data :
  let req := POST float measurements_url (Measurements float [prepared_data]) in
  exists ok msg,
    upload_data float s prepared_data = Ok (ok, msg)
    /\ (ok = true <-> exists rsp, s req = Ok rsp /\ status_code rsp = 204)
    /\ (ok = true -> msg = "OK"%string)
    /\ (forall rsp, s req = Ok rsp -> status_code rsp <> 204 ->
         msg = "http status: " +:+ Py.str_int (status_code rsp) +:+ " " +:+ text rsp)
    /\ (forall ex, s req = Raise ex -> msg = Py.str ex).
Proof.
  intros req. unfold upload_data. fold req.
  destruct (s req) as [rsp | ex].
  - destruct (Z.eqb_spec (status_code rsp) 204) as [E | E]; simpl.
    + exists true, "OK"%string. repeat split; eauto; try discriminate.
      intros rsp' H. injection H as <-. contradiction.
    + eexists false, _. split; [reflexivity |]. repeat split; try discriminate.
      * intros (rsp' & H & E'). injection H as <-. contradiction.
      * intros rsp' H _. injection H as <-. reflexivity.
  - exists false, (Py.str ex). repeat split; try discriminate.
    + intros (rsp & H & _). discriminate.
    + intros ex' H. injection H as <-. reflexivity.
Qed.

End Http.

Lemma register_reuses_or_creates_witness :
  snd (fst (register Z Samples.whole_float (init Samples.unregistered) Samples.server))
  = [POST Z stations_url
       (Station Z {| s_external_id := "SW1Aweather"; s_name := "Buck House";
                     s_latitude := 51; s_longitude := 0; s_altitude := 10 |})]
  /\ get (snd (register Z Samples.whole_float (init Samples.unregistered) Samples.server))
       service_name "station id"
     = Some "583436dd9643a9000196b8d6"%string.
Proof.
  pose proof (register_reuses_or_creates Z Samples.whole_float Samples.unregistered
                Samples.server
                {| s_external_id := "SW1Aweather"; s_name := "Buck House";
                   s_latitude := 51; s_longitude := 0; s_altitude := 10 |}
                ltac:(vm_compute; reflexivity)) as H.
  cbv zeta in H.
  assert (get Samples.unregistered service_name "station id" = None) as E
    by (vm_compute; reflexivity).
  rewrite E in H. destruct H as [Hreq H]. split; [exact Hreq |].
  unfold Samples.server in H. cbv beta iota in H. unfold json in H.
  rewrite lookup_singleton_eq in H. destruct H as (_ & -> & _).
  unfold get, set. apply lookup_insert_eq.
Defined.

End OpenWeatherMapFacts.

(** ** upload_data, for both services *)

Module UploadFacts.

(** C7, amended.  CWOP: when the two lines can be made,
    [upload_data] returns a pair whatever the socket does,
    [(False, repr(ex))] for the first exception [ex] among its four
    calls on the socket and [(True, 'OK')] when there is none; when
    the lines cannot be made it raises, before any call on the
    socket.  OpenWeatherMap: [upload_data] always returns a pair,
    [(True, 'OK')] exactly when the status of the answer is 204,
    [(False, 'http status: ...')] for any other status and
    [(False, str(ex))] when the request raises [ex]. *)
Theorem upload_data_outcome :
  (forall ws_type session d,
      match Cwop.lines ws_type d with
      | Raise e => Cwop.upload_data ws_type session d = (Raise e, session)
      | Ok _ =>
          fst (Cwop.upload_data ws_type session d)
          = match Cwop.first_failure 4 (Cwop.script session) with
            | Some ex => Ok (false, Py.repr ex)
            | None => Ok (true, "OK"%string)
            end
      end)
  /\ (forall (float : Type) (s : OpenWeatherMap.session float) prepared_data,
        let req :=
          OpenWeatherMap.POST float OpenWeatherMap.measurements_url
            (OpenWeatherMap.Measurements float [prepared_data]) in
        exists ok msg,
          OpenWeatherMap.upload_data float s prepared_data = Ok (ok, msg)
          /\ (ok = true <->
              exists rsp, s req = Ok rsp /\ OpenWeatherMap.status_code rsp = 204)
          /\ (ok = true -> msg = "OK"%string)
          /\ (forall rsp,
                s req = Ok rsp -> OpenWeatherMap.status_code rsp <> 204 ->
                msg = "http status: " +:+ Py.str_int (OpenWeatherMap.status_code rsp)
                        +:+ " " +:+ OpenWeatherMap.text rsp)
          /\ (forall ex, s req = Raise ex -> msg = Py.str ex)).
Proof.
  split.
  - intros ws_type session d. unfold Cwop.upload_data.
    destruct (Cwop.lines ws_type d) as [[login packet] | e]; [| reflexivity].
    pose proof (CwopFacts.transmit_outcome session login packet) as H.
    destruct (Cwop.transmit session login packet) as [r session'].
    cbn [fst] in *. rewrite H.
    destruct (Cwop.first_failure 4 (Cwop.script session)); reflexivity.
  - intros float s prepared_data. apply OpenWeatherMapFacts.upload_data_status.
Qed.

End UploadFacts.

(** ** The upload throttle *)

Module ServiceFacts.

Import Service.

Lemma live_apart interval upload events : 0 <= interval -> forall last_attempt,
  Forall (fun a => forall t, last_attempt = Some t -> t + interval <= fst a)
    (live interval upload last_attempt events)
  /\ StronglySorted (fun a b => fst a + interval <= fst b)
       (live interval upload last_attempt events).
Proof.
  intros Hpos. induction events as [| now events IH]; intros last_attempt; simpl.
  - split; constructor.
  - destruct (due interval now last_attempt) eqn:Hdue; [| apply IH].
    destruct (IH (Some now)) as [Hall Hsorted]. split.
    + constructor.
      * simpl. intros t ->. simpl in Hdue. apply Z.leb_le in Hdue. lia.
      * eapply List.Forall_impl; [| exact Hall]. simpl.
        intros a Ha t ->. simpl in Hdue. apply Z.leb_le in Hdue.
        specialize (Ha now eq_refl). lia.
    + constructor; [exact Hsorted |].
      eapply List.Forall_impl; [| exact Hall]. simpl. auto.
Qed.

(** C9: the interval of CWOP is 290 seconds; under the throttle, the
    attempts begun for any live events and any outcomes are at least
    290 seconds after one another and after the attempt before them;
    two live events 60 seconds apart give one attempt, the first. *)
Theorem cwop_throttle upload last_attempt events :
  Cwop.interval = timedelta_seconds 290
  /\ StronglySorted (fun a b => fst a + timedelta_seconds 290 <= fst b)
       (live Cwop.interval upload last_attempt events)
  /\ Forall (fun a => forall t, last_attempt = Some t -> t + timedelta_seconds 290 <= fst a)
       (live Cwop.interval upload last_attempt events)
  /\ (forall now,
        live Cwop.interval upload None [now; now + timedelta_seconds 60]
        = [(now, upload now)]).
Proof.
  split; [reflexivity |].
  destruct (live_apart Cwop.interval upload events ltac:(vm_compute; discriminate)
              last_attempt) as [Hall Hsorted].
  split; [exact Hsorted |]. split; [exact Hall |].
  intros now. cbn [live due].
  destruct (Z.leb_spec Cwop.interval (now + timedelta_seconds 60 - now)) as [H | H];
    [| reflexivity].
  unfold Cwop.interval, timedelta_seconds in H. lia.
Qed.

End ServiceFacts.

(** * Further properties *)

(** ** The reading store under appends *)

Module AppendFacts.

Import DataStoreFacts BulkFacts Bulk Samples.

Lemma after_app s k t h : after s t = Some h -> after (s ++ k) t = Some h.
Proof.
  induction s as [| r s IH]; simpl; [discriminate |].
  destruct (t <=? idx r); auto.
Qed.

Lemma before_app s k t :
  (forall r, In r k -> t <= idx r) -> before (s ++ k) t = before s t.
Proof.
  intros Hk. induction s as [| r s IH]; simpl.
  - destruct k as [| x k]; [reflexivity |]. simpl.
    destruct (Z.ltb_spec (idx x) t); [| reflexivity].
    specialize (Hk x (or_introl eq_refl)). lia.
  - rewrite IH. reflexivity.
Qed.

Lemma nearest_app s k t :
  is_Some (after s t) -> (forall r, In r k -> t <= idx r) ->
  nearest (s ++ k) t = nearest s t.
Proof.
  intros [h Hh] Hk. unfold nearest.
  rewrite (after_app _ k _ _ Hh), Hh, before_app by exact Hk. reflexivity.
Qed.

Lemma getitem_app s k n r :
  getitem s (Some n) = Ok r -> getitem (s ++ k) (Some n) = Ok r.
Proof.
  unfold getitem. destruct (List.find _ s) as [x |] eqn:E; [| discriminate].
  intros H. injection H as ->.
  assert (List.find (fun r => idx r =? n) (s ++ k) = Some r) as ->; [| reflexivity].
  induction s as [| y s IH]; simpl in *; [discriminate |].
  destruct (idx y =? n); [exact E | auto].
Qed.

Lemma slice_app s k a b :
  (forall r, In r k -> b <= idx r) -> slice (s ++ k) a b = slice s a b.
Proof.
  intros Hk. unfold slice. rewrite List.filter_app.
  replace (List.filter _ k) with (@nil reading); [apply app_nil_r |].
  symmetry. induction k as [| x k IH]; simpl; [reflexivity |].
  destruct (Z.ltb_spec (idx x) b) as [H | H].
  - specialize (Hk x (or_introl eq_refl)). lia.
  - rewrite andb_false_r. apply IH. intros r Hr. apply Hk. now right.
Qed.

Lemma after_some s t r : In r s -> t <= idx r -> is_Some (after s t).
Proof.
  intros Hin Hle. destruct (after s t) as [h |] eqn:E; [eauto |].
  pose proof (after_none _ _ E _ Hin). lia.
Qed.

(** X1: readings added to a store after the reading at [at] leave
    [max_temp24] at [at] as it was. *)
Theorem max_temp24_append calib_data later_readings report :
  ascending calib_data -> In report calib_data ->
  (forall r, In r later_readings -> idx report < idx r) ->
  max_temp24 (calib_data ++ later_readings) report = max_temp24 calib_data report.
Proof.
  intros Hs Hin Hlater.
  assert (0 < DAY) as Hday by reflexivity.
  destruct (nearest_stored calib_data (idx report - DAY) report Hin)
    as (n & r0 & En & Hr0 & <-).
  assert (idx r0 <= idx report) as Hle
    by (eapply nearest_no_gap; eauto; lia).
  unfold max_temp24.
  rewrite nearest_app; [| eapply after_some; [exact Hin | lia] |
                          intros r Hr; specialize (Hlater r Hr); lia].
  rewrite En, (getitem_stored _ _ Hs Hr0).
  rewrite (getitem_app _ later_readings _ _ (getitem_stored _ _ Hs Hr0)).
  simpl. rewrite slice_app; [reflexivity |].
  intros r Hr. specialize (Hlater r Hr). lia.
Qed.

Lemma max_temp24_append_witness :
  max_temp24 (two_days ++ [later]) (reading_at (DAY + timedelta_minutes 1) 100 0)
  = max_temp24 two_days (reading_at (DAY + timedelta_minutes 1) 100 0).
Proof.
  apply (max_temp24_append two_days [later] (reading_at (DAY + timedelta_minutes 1) 100 0)).
  - unfold ascending; repeat constructor; simpl; lia.
  - right; left; reflexivity.
  - intros r [<- | []]. vm_compute. reflexivity.
Defined.

(** X2: a reading without a temperature never hides a measured one:
    when a reading stored within [at - 24h, at] has a temperature,
    [max_temp24] returns a temperature, and one at least as high. *)
Theorem max_temp24_measured calib_data report r t :
  ascending calib_data -> In report calib_data ->
  In r calib_data -> idx report - DAY <= idx r <= idx report ->
  temp_out r = Some t ->
  exists m, max_temp24 calib_data report = Ok (Some m) /\ t <= m.
Proof.
  intros Hs Hin Hr [Hlo Hhi] Ht.
  destruct (max_temp24_scans _ _ Hs Hin) as (start & En & Hle & Hgap & E).
  destruct (scan_spec (slice calib_data start (idx report)) (temp_out report))
    as (Hseed & Hall & _).
  assert (Py.le (temp_out r) (scan (slice calib_data start (idx report))
                                (temp_out report))) as H.
  { destruct (Z.eq_dec (idx r) (idx report)) as [Heq | Hne].
    - rewrite (ascending_unique _ Hs _ _ Hr Hin Heq). exact Hseed.
    - apply Hall, slice_In. split; [exact Hr |]. specialize (Hgap r Hr Hlo). lia. }
  rewrite E. rewrite Ht in H. unfold Py.le in H.
  destruct (scan _ _) as [m |]; simpl in H; [| discriminate].
  exists m. split; [reflexivity |]. apply Z.ltb_ge in H. exact H.
Qed.

Lemma max_temp24_measured_witness :
  exists m,
    max_temp24 two_days (reading_at (DAY + timedelta_minutes 1) 100 0) = Ok (Some m)
    /\ 100 <= m.
Proof.
  apply (max_temp24_measured two_days (reading_at (DAY + timedelta_minutes 1) 100 0)
           (reading_at (DAY + timedelta_minutes 1) 100 0) 100).
  - unfold ascending; repeat constructor; simpl; lia.
  - right; left; reflexivity.
  - right; left; reflexivity.
  - vm_compute. split; discriminate.
  - reflexivity.
Defined.

End AppendFacts.

(** ** scripts/bulk_metoffice_generator.py, further *)

Module BulkMore.

Import DataStoreFacts BulkFacts Bulk BulkMain Samples.

(** X3: away from the day of the reading, the day on which the script
    is run does not matter to [rain_day]: it gives the same result and
    looks the same midnight up when run any number of days apart. *)
Theorem rain_day_any_run_day now_midnight k calib_data report :
  ~ (now_midnight <= idx report < now_midnight + DAY) ->
  ~ (now_midnight + k * DAY <= idx report < now_midnight + k * DAY + DAY) ->
  rain_day (now_midnight + k * DAY) calib_data report
  = rain_day now_midnight calib_data report.
Proof.
  intros Hnow Hthen.
  rewrite !rain_day_other_day by assumption.
  rewrite local_midnight_shift. reflexivity.
Qed.

Lemma rain_day_any_run_day_witness :
  rain_day (day0 + DAY + 7 * DAY) one_day (reading_at (day0 + timedelta_hours 2) 100 9)
  = rain_day (day0 + DAY) one_day (reading_at (day0 + timedelta_hours 2) 100 9).
Proof.
  apply (rain_day_any_run_day (day0 + DAY) 7 one_day
           (reading_at (day0 + timedelta_hours 2) 100 9)); vm_compute; intros [H1 H2];
    first [now apply H1 | discriminate H2].
Defined.

(** X4: the one timestamp [rain_day] looks up is the start of the
    24-hour day that holds the reading, counted in whole days from the
    local midnight of the run; there is one such instant only. *)
Theorem rain_day_aligns now_midnight calib_data report :
  ~ (now_midnight <= idx report < now_midnight + DAY) ->
  exists midnight,
    snd (rain_day now_midnight calib_data report) = [midnight]
    /\ midnight <= idx report < midnight + DAY
    /\ (exists k, midnight = now_midnight + k * DAY)
    /\ (forall m k, m = now_midnight + k * DAY -> m <= idx report < m + DAY ->
        m = midnight).
Proof.
  intros Hday. exists (local_midnight now_midnight (idx report)).
  rewrite rain_day_other_day by exact Hday.
  split; [reflexivity |]. split; [apply local_midnight_holds |]. split.
  - exists ((idx report - now_midnight) / DAY). unfold local_midnight. ring.
  - intros m k -> Hm. pose proof (local_midnight_holds now_midnight (idx report)) as H.
    unfold local_midnight in *. rewrite DAY_value in *.
    assert (k = (idx report - now_midnight) / 86400000000); [| subst k; ring].
    Z.div_mod_to_equations. lia.
Qed.

Lemma rain_day_aligns_witness :
  exists midnight,
    snd (rain_day (day0 + DAY) one_day (reading_at (day0 + timedelta_hours 2) 100 9))
    = [midnight]
    /\ midnight <= day0 + timedelta_hours 2 < midnight + DAY
    /\ (exists k, midnight = day0 + DAY + k * DAY)
    /\ (forall m k, m = day0 + DAY + k * DAY ->
        m <= day0 + timedelta_hours 2 < m + DAY -> m = midnight).
Proof.
  apply (rain_day_aligns (day0 + DAY) one_day
           (reading_at (day0 + timedelta_hours 2) 100 9)).
  vm_compute. intros [H _]. now apply H.
Defined.

(** *** The interval test, again *)

Lemma dedupe_fixed reports : forall prev_idx,
  Forall (fun r => prev_idx + REPORTS_MAXIMUM_FREQUENCY <= idx r) reports ->
  StronglySorted apart reports ->
  dedupe prev_idx reports = reports.
Proof.
  induction reports as [| report reports IH]; intros prev_idx Hall Hsorted; simpl.
  - reflexivity.
  - inversion Hall as [| ? ? Hhead _]; subst.
    inversion Hsorted as [| ? ? Htail Hnext]; subst.
    destruct (Z.ltb_spec (idx report - prev_idx) REPORTS_MAXIMUM_FREQUENCY); [lia |].
    f_equal. apply IH; assumption.
Qed.

(** X6: the interval test lets all of its own output through: the
    readings kept from a sequence are all kept again, whatever the
    order of the sequence. *)
Theorem dedupe_idempotent prev_idx reports :
  dedupe prev_idx (dedupe prev_idx reports) = dedupe prev_idx reports.
Proof.
  destruct (dedupe_apart reports prev_idx) as [Hall Hsorted].
  apply dedupe_fixed; assumption.
Qed.

(** *** How a run ends *)

Section Generate.

Variable render_date : Z -> string.
Variable dew_point : option Z -> option Z -> option Z.
Variable winddir_degrees : option Z -> option Z.
Variable now_midnight : Z.

Local Abbreviation csv_report :=
  (Bulk.csv_report render_date dew_point winddir_degrees now_midnight).
Local Abbreviation bulk_loop :=
  (Bulk.bulk_loop render_date dew_point winddir_degrees now_midnight).

Lemma today_spec r :
  today now_midnight r = true <-> now_midnight <= idx r < now_midnight + DAY.
Proof. unfold today. rewrite andb_true_iff, Z.leb_le, Z.ltb_lt. tauto. Qed.

(** The row of a stored reading of 1900 or later can be made unless
    the reading is of the day of the run. *)
Lemma csv_report_outcome calib_data report :
  ascending calib_data -> In report calib_data -> datetime_1900 <= idx report ->
  if today now_midnight report
  then csv_report calib_data report = Raise (UnboundLocalError "rain_midnight")
  else succeeded (csv_report calib_data report) = true.
Proof.
  intros Hs Hin Hyear. unfold Bulk.csv_report, strftime.
  destruct (Z.ltb_spec (idx report) datetime_1900); [lia |].
  rewrite CwopFacts.rbind_ok.
  destruct (max_temp24_scans _ _ Hs Hin) as (start & _ & _ & _ & ->).
  rewrite CwopFacts.rbind_ok.
  destruct (lookup_reading calib_data (idx report - HOUR) report Hs Hin)
    as (ref & _ & _ & Eref).
  unfold rain_rate. rewrite Eref, !CwopFacts.rbind_ok.
  destruct (today now_midnight report) eqn:Etoday.
  - apply today_spec in Etoday. rewrite rain_day_today by exact Etoday. reflexivity.
  - assert (~ (now_midnight <= idx report < now_midnight + DAY)) as Hday
      by (rewrite <- today_spec, Etoday; discriminate).
    rewrite rain_day_other_day by exact Hday. cbn [fst].
    destruct (lookup_reading calib_data (local_midnight now_midnight (idx report))
                report Hs Hin) as (ref' & _ & _ & ->).
    reflexivity.
Qed.

Lemma bulk_loop_outcome calib_data reports : forall prev_idx,
  ascending calib_data ->
  Forall (fun r => In r calib_data /\ datetime_1900 <= idx r) reports ->
  snd (bulk_loop calib_data prev_idx reports)
  = if existsb (today now_midnight) (dedupe prev_idx reports)
    then Raise (UnboundLocalError "rain_midnight") else Ok tt.
Proof.
  intros prev_idx Hs Hall. revert prev_idx.
  induction Hall as [| report reports [Hin Hyear] _ IH]; intros prev_idx; simpl.
  - reflexivity.
  - destruct (_ <? _); [apply IH |].
    pose proof (csv_report_outcome calib_data report Hs Hin Hyear) as Hrow.
    cbn [existsb]. destruct (today now_midnight report).
    + rewrite Hrow. reflexivity.
    + destruct (Bulk.csv_report _ _ _ _ calib_data report) as [row | e];
        [| discriminate Hrow].
      specialize (IH (idx report)).
      destruct (Bulk.bulk_loop _ _ _ _ calib_data (idx report) reports) as [rows out].
      exact IH.
Qed.

Lemma slice_all (s : store) a b :
  Forall (fun r => a <= idx r < b) s -> slice s a b = s.
Proof.
  unfold slice. induction 1 as [| r s [Hlo Hhi] _ IH]; simpl; [reflexivity |].
  destruct (Z.leb_spec a (idx r)), (Z.ltb_spec (idx r) b); try lia.
  simpl. now rewrite IH.
Qed.

(** X5: on a store of readings of 1900 or later, in ascending order,
    [GenerateBulk] ends in one of two ways: it returns 0 when none of
    the readings that pass the interval test is of the local day of
    the run, and otherwise it stops on the unbound [rain_midnight] of
    [rain_day]. *)
Theorem GenerateBulk_outcome calib_data :
  ascending calib_data ->
  Forall (fun r => datetime_1900 <= idx r < datetime_max) calib_data ->
  snd (GenerateBulk render_date dew_point winddir_degrees now_midnight calib_data)
  = if existsb (today now_midnight) (dedupe datetime_min calib_data)
    then Raise (UnboundLocalError "rain_midnight") else Ok 0.
Proof.
  intros Hs Hall. unfold GenerateBulk.
  assert (datetime_min <= datetime_1900) as Hmin by (vm_compute; discriminate).
  rewrite slice_all
    by (eapply List.Forall_impl; [| exact Hall]; cbv beta; intros r Hr; lia).
  pose proof (bulk_loop_outcome calib_data calib_data datetime_min Hs) as H.
  destruct (Bulk.bulk_loop _ _ _ _ calib_data datetime_min calib_data) as [rows out].
  cbn [snd] in *. rewrite H.
  - destruct (existsb _ _); reflexivity.
  - rewrite List.Forall_forall in *. intros r Hr. split; [exact Hr |].
    apply (Hall r Hr).
Qed.

(** *** The keys of a row *)

Lemma csv_report_dom calib_data report row :
  csv_report calib_data report = Ok row ->
  dom row = list_to_set written_keys.
Proof.
  unfold Bulk.csv_report.
  destruct (strftime _ _) as [date |]; simpl; [| discriminate].
  destruct (max_temp24 _ _) as [max_temp |]; simpl; [| discriminate].
  destruct (rain_rate _ _) as [rate |]; simpl; [| discriminate].
  destruct (fst (rain_day _ _ _)) as [rain_today |]; simpl; [| discriminate].
  intros E. injection E as <-.
  rewrite !dom_insert_L, dom_empty_L. set_solver.
Qed.

(** X7: every row [GenerateBulk] makes has the same eleven keys, all
    of them column names of [FIELDS], so that [csv.DictWriter] finds no
    key it does not know; every other column of the 43 is written
    empty. *)
Theorem csv_report_keys calib_data report row :
  csv_report calib_data report = Ok row ->
  (forall k, is_Some (row !! k) <-> k ∈ written_keys)
  /\ Forall (fun k => k ∈ FIELDS) written_keys
  /\ (forall k, k ∉ written_keys -> csv_field (row !! k) = ""%string)
  /\ length (writerow row) = 43%nat.
Proof.
  intros Hrow. pose proof (csv_report_dom _ _ _ Hrow) as Hdom.
  assert (forall k, is_Some (row !! k) <-> k ∈ written_keys) as Hkeys.
  { intros k. rewrite <- elem_of_dom, Hdom. apply elem_of_list_to_set. }
  split; [exact Hkeys |]. split; [| split].
  - apply (bool_decide_unpack _). vm_compute. exact I.
  - intros k Hk. destruct (row !! k) as [v |] eqn:E; [| reflexivity].
    exfalso. apply Hk, Hkeys. eauto.
  - unfold writerow. rewrite List.length_map. reflexivity.
Qed.

Lemma apart_ascending calib_data : Sorted apart calib_data -> ascending calib_data.
Proof.
  intros Hsorted. apply Sorted_StronglySorted in Hsorted.
  - unfold ascending. induction Hsorted as [| r s _ IH Hall]; constructor; [exact IH |].
    eapply List.Forall_impl; [| exact Hall]. unfold apart. simpl.
    intros x Hx. assert (0 < REPORTS_MAXIMUM_FREQUENCY) by reflexivity. lia.
  - intros x y z. unfold apart.
    assert (0 < REPORTS_MAXIMUM_FREQUENCY) by reflexivity. lia.
Qed.

Lemma apart_dedupe calib_data :
  Sorted apart calib_data ->
  Forall (fun r => datetime_1900 <= idx r) calib_data ->
  dedupe datetime_min calib_data = calib_data.
Proof.
  intros Hsorted Hall. apply dedupe_fixed.
  - eapply List.Forall_impl; [| exact Hall]. cbv beta. intros r Hr.
    assert (datetime_min + REPORTS_MAXIMUM_FREQUENCY <= datetime_1900)
      by (vm_compute; discriminate). lia.
  - apply Sorted_StronglySorted; [| exact Hsorted].
    intros x y z. unfold apart.
    assert (0 < REPORTS_MAXIMUM_FREQUENCY) by reflexivity. lia.
Qed.

(** X19: a store of readings of 1900 or later, each stamped at least
    three minutes after the one before and none of them of the local
    day of the run, is written in full: [GenerateBulk] returns 0 and
    makes one row for each reading, in the order of the store. *)
Theorem GenerateBulk_full_export calib_data :
  Sorted apart calib_data ->
  Forall (fun r => datetime_1900 <= idx r < datetime_max) calib_data ->
  existsb (today now_midnight) calib_data = false ->
  let run := GenerateBulk render_date dew_point winddir_degrees now_midnight calib_data in
  snd run = Ok 0 /\ List.map fst (fst run) = calib_data.
Proof.
  intros Hsorted Hall Htoday.
  assert (datetime_min <= datetime_1900) as Hmin by (vm_compute; discriminate).
  assert (dedupe datetime_min calib_data = calib_data) as Hdedupe
    by (apply apart_dedupe; [exact Hsorted |];
        eapply List.Forall_impl; [| exact Hall]; cbv beta; intros r Hr; lia).
  pose proof (apart_ascending _ Hsorted) as Hs.
  assert (Forall (fun r => In r calib_data /\ datetime_1900 <= idx r) calib_data) as Hin
    by (rewrite List.Forall_forall in *; intros r Hr; split;
        [exact Hr | apply (Hall r Hr)]).
  pose proof (bulk_loop_outcome calib_data calib_data datetime_min Hs Hin) as Hout.
  pose proof (bulk_loop_rows render_date dew_point winddir_degrees now_midnight
                calib_data calib_data datetime_min) as (_ & Hrows & _).
  cbv zeta. unfold GenerateBulk.
  rewrite slice_all
    by (eapply List.Forall_impl; [| exact Hall]; cbv beta; intros r Hr; lia).
  destruct (Bulk.bulk_loop _ _ _ _ calib_data datetime_min calib_data) as [rows out].
  cbn [fst snd] in *. rewrite Hdedupe, Htoday in *. subst out.
  split; [reflexivity | auto].
Qed.

End Generate.

Lemma GenerateBulk_full_export_witness :
  snd (GenerateBulk render_date dew_point winddir_degrees (day0 + DAY) one_day) = Ok 0
  /\ List.map fst (fst (GenerateBulk render_date dew_point winddir_degrees (day0 + DAY)
                          one_day))
     = one_day.
Proof.
  apply (GenerateBulk_full_export render_date dew_point winddir_degrees (day0 + DAY)
           one_day).
  - repeat constructor; vm_compute; discriminate.
  - repeat constructor; vm_compute; discriminate.
  - vm_compute. reflexivity.
Defined.

Lemma GenerateBulk_outcome_witness :
  snd (GenerateBulk render_date dew_point winddir_degrees day0 one_day)
  = Raise (UnboundLocalError "rain_midnight")
  /\ snd (GenerateBulk render_date dew_point winddir_degrees (day0 + DAY) one_day) = Ok 0.
Proof.
  assert (ascending one_day) as Hs by (unfold ascending; repeat constructor; simpl; lia).
  assert (Forall (fun r => datetime_1900 <= idx r < datetime_max) one_day) as Hall
    by (repeat constructor; vm_compute; discriminate).
  split.
  - rewrite (GenerateBulk_outcome render_date dew_point winddir_degrees day0 one_day Hs Hall).
    vm_compute. reflexivity.
  - rewrite (GenerateBulk_outcome render_date dew_point winddir_degrees (day0 + DAY)
               one_day Hs Hall).
    vm_compute. reflexivity.
Defined.

Lemma csv_report_keys_witness :
  match Bulk.csv_report render_date dew_point winddir_degrees (day0 + DAY) calm
          (List.nth 1 calm (reading_at 0 0 0)) with
  | Ok row =>
      is_Some (row !! "Wind Speed")
      /\ csv_field (row !! "Mean Sea-Level Pressure") = ""%string
      /\ length (writerow row) = 43%nat
  | Raise _ => False
  end.
Proof.
  assert (succeeded (Bulk.csv_report render_date dew_point winddir_degrees (day0 + DAY)
                       calm (List.nth 1 calm (reading_at 0 0 0))) = true) as Hok
    by (vm_compute; reflexivity).
  destruct (Bulk.csv_report _ _ _ _ _ _) as [row | e] eqn:Hrow; [| discriminate Hok].
  destruct (csv_report_keys render_date dew_point winddir_degrees (day0 + DAY) calm
              (List.nth 1 calm (reading_at 0 0 0)) row Hrow)
    as (Hkeys & _ & Hblank & Hlen).
  split; [apply Hkeys; apply (bool_decide_unpack _); vm_compute; exact I |].
  split; [apply Hblank; apply (bool_decide_unpack _); vm_compute; exact I | exact Hlen].
Defined.

End BulkMore.

(** ** src/pywws/service/cwop.py, further *)

Module CwopMore.

Import Template Cwop CwopSession CwopFacts.

(** X8: the [try] block of [upload_data] asks the socket for the login,
    the acknowledgement, the packet and the shutdown, in that order,
    and for nothing after the first of these that fails; the packet is
    sent only when the login was sent and acknowledged. *)
Theorem transmit_stops_at_failure session login packet :
  let n := attempted 4 (script session) in
  calls (snd (transmit session login packet))
  = calls session ++ take n [Sendall login; Recv; Sendall packet; Shutdown]
  /\ script (snd (transmit session login packet)) = drop n (script session)
  /\ ((3 <= n)%nat <-> first_failure 2 (script session) = None)
  /\ ((n < 4)%nat -> exists ex, fst (transmit session login packet) = Raise ex).
Proof.
  destruct session as [calls0 script0]. unfold transmit, perform. cbn [calls script].
  destruct script0 as [| [e1 |] [| [e2 |] [| [e3 |] [| [e4 |] script0]]]];
    cbn [attempted first_failure take drop fst snd calls script];
    rewrite <- ?app_assoc; cbn [List.app];
    (split; [reflexivity |]); (split; [reflexivity |]);
    (split; [split; intros; (lia || congruence) |]);
    intros; (lia || eauto).
Qed.

(** X9: on a station of type 3080 the rain of the last hour is parsed
    before anything is sent: when it is not a number, as the sentinel
    ['...'] of the template is not, [upload_data] raises [ValueError]
    and leaves the socket untouched; on other stations it is not
    parsed. *)
Theorem upload_data_rain_hour_unparsed session (d : gmap string string) s :
  Forall (fun key => is_Some (d !! key)) (Py.keys login_format) ->
  map_Forall (fun _ v => Py.is_ascii v = true) d ->
  d !! "rain_hour" = Some s -> Py.int s = None ->
  upload_data "3080" session d
  = (Raise (ValueError "invalid literal for int()"), session)
  /\ Py.int (fallback (digits3_tuple "rain_hour")) = None
  /\ (forall ws_type, ws_type <> "3080"%string -> no_rain_on_3080 ws_type d = Ok false).
Proof.
  intros Hlogin Hascii Hrain Hint. split; [| split].
  - unfold upload_data, lines.
    rewrite format_fill by exact Hlogin. rewrite rbind_ok.
    unfold Py.encode at 1. rewrite fill_ascii by (reflexivity || exact Hascii).
    rewrite rbind_ok. unfold no_rain_on_3080. cbn [String.eqb Ascii.eqb Bool.eqb].
    rewrite Hrain, Hint. reflexivity.
  - vm_compute. reflexivity.
  - intros ws_type Hne. unfold no_rain_on_3080.
    destruct (String.eqb_spec ws_type "3080"); [contradiction | reflexivity].
Qed.

Lemma upload_data_rain_hour_unparsed_witness :
  upload_data "3080" Samples.fresh (<["rain_hour" := "..."%string]> Samples.dry_hour)
  = (Raise (ValueError "invalid literal for int()"), Samples.fresh)
  /\ Py.int (fallback (digits3_tuple "rain_hour")) = None
  /\ (forall ws_type, ws_type <> "3080"%string ->
      no_rain_on_3080 ws_type (<["rain_hour" := "..."%string]> Samples.dry_hour)
      = Ok false).
Proof.
  apply (upload_data_rain_hour_unparsed Samples.fresh
           (<["rain_hour" := "..."%string]> Samples.dry_hour) "...").
  - repeat constructor; eexists; vm_compute; reflexivity.
  - apply (bool_decide_unpack _). vm_compute. exact I.
  - vm_compute. reflexivity.
  - vm_compute. reflexivity.
Defined.

(** What ['%03d'] writes for a number of at most three digits, [int]
    reads back. *)
Lemma int_pad_int_3 n : 0 <= n < 1000 -> Py.int (Py.pad_int 3 n) = Some n.
Proof.
  intros Hn.
  assert (forallb (fun k => bool_decide (Py.int (Py.pad_int 3 (Z.of_nat k))
                                         = Some (Z.of_nat k)))
            (seq 0 1000) = true) as Hall by (vm_compute; reflexivity).
  rewrite forallb_forall in Hall.
  specialize (Hall (Z.to_nat n)). rewrite Z2Nat.id in Hall by lia.
  eapply bool_decide_eq_true, Hall. apply in_seq. lia.
Qed.

(** X10: the template and [upload_data] agree on the rain of the last
    hour: what the format ['%03d'] of the template writes for a value
    of at most three digits, [upload_data] reads back as that value,
    so that on a station of type 3080 the illuminance takes the place
    of the rain exactly when the value is 0. *)
Theorem rain_hour_read_back (d : gmap string string) n :
  0 <= n < 1000 ->
  fmt (digits3_tuple "rain_hour") = FPad 3
  /\ no_rain_on_3080 "3080" (<["rain_hour" := Py.pad_int 3 n]> d) = Ok (n =? 0).
Proof.
  intros Hn. split; [reflexivity |].
  unfold no_rain_on_3080. cbn [String.eqb Ascii.eqb Bool.eqb].
  rewrite lookup_insert_eq. now rewrite int_pad_int_3.
Qed.

Lemma rain_hour_read_back_witness :
  fmt (digits3_tuple "rain_hour") = FPad 3
  /\ no_rain_on_3080 "3080" (<["rain_hour" := Py.pad_int 3 12]> Samples.dry_hour)
     = Ok (12 =? 0).
Proof. apply (rain_hour_read_back Samples.dry_hour 12). lia. Defined.

(** X11: whatever the station, the keys of the template are distinct
    and cover every field the login and the packet of [upload_data]
    take from the prepared data, but for the designator, the passcode
    and the version, which are fixed data; the illuminance fields are
    there exactly for stations of type 3080 and the altitude exactly
    when an altitude is configured. *)
Theorem template_covers_packet p :
  let names := List.map name (ToService_template p) in
  let fixed := ["designator"; "passcode"; "version"]%string in
  NoDup names
  /\ Forall (fun k => k ∈ names \/ k ∈ fixed) required_keys
  /\ (Forall (fun k => k ∈ names) (Py.keys packet_illuminance)
      <-> ws_type p = "3080"%string)
  /\ (Forall (fun k => k ∈ names) (Py.keys packet_altitude)
      <-> exists a, altitude p = Some a /\ a <> ""%string).
Proof.
  unfold ToService_template.
  destruct (String.eqb_spec (ws_type p) "3080") as [E3080 | E3080];
    destruct (altitude p) as [[| c a] |] eqn:Ealt; cbn [String.length Nat.ltb Nat.leb];
    cbv zeta.
  all: split; [apply (bool_decide_unpack _); vm_compute; exact I |].
  all: split; [apply (bool_decide_unpack _); vm_compute; exact I |].
  all: split.
  all: try (split; [intros _; assumption
                   | intros _; apply (bool_decide_unpack _); vm_compute; exact I]).
  all: try (split; [intros H; exfalso; revert H; apply (bool_decide_unpack _);
                    vm_compute; exact I
                   | intros H; contradiction]).
  all: try (split; [intros _; eexists; split; [reflexivity | discriminate]
                   | intros _; apply (bool_decide_unpack _); vm_compute; exact I]).
  all: split; [intros H; exfalso; revert H; apply (bool_decide_unpack _);
               vm_compute; exact I
              | intros (a' & Ha & Hne); congruence].
Qed.

(** *** session *)

(** X12: [session] sets the timeout of 20 seconds, connects to port
    14580 of [cwop.aprs.net] when the passcode is [-1] and of
    [rotate.aprs.net] otherwise, and reads the banner; the body runs
    only when these three calls succeed, and its outcome is the one of
    the [with] statement; whatever fails, the socket is closed, once,
    as the last call. *)
Theorem session_closes {A} passcode (body : socket -> result A * socket) (s : conn) :
  let run := session passcode body s in
  let opening := [Settimeout 20; Connect (server passcode) 14580; Banner] in
  let inner := body {| calls := []; script := drop 3 (conn_script s) |} in
  (server passcode = "cwop.aprs.net"%string <-> passcode = "-1"%string)
  /\ (server passcode = "rotate.aprs.net"%string <-> passcode <> "-1"%string)
  /\ match first_failure 3 (conn_script s) with
     | Some e =>
         fst run = Raise e
         /\ conn_calls (snd run)
            = conn_calls s ++ take (attempted 3 (conn_script s)) opening ++ [Close]
     | None =>
         fst run = fst inner
         /\ conn_calls (snd run)
            = conn_calls s ++ opening ++ List.map Use (calls (snd inner)) ++ [Close]
     end.
Proof.
  cbv zeta. split; [| split].
  - unfold server. destruct (String.eqb_spec passcode "-1"); split; congruence.
  - unfold server. destruct (String.eqb_spec passcode "-1"); split; congruence.
  - destruct s as [calls0 script0]. unfold session, step, close.
    cbn [conn_calls conn_script].
    destruct script0 as [| [e1 |] [| [e2 |] [| [e3 |] script0]]];
      cbn [first_failure attempted take drop fst snd conn_calls conn_script];
      try (split; [reflexivity | rewrite <- ?app_assoc; reflexivity]).
    all: destruct (body _) as [r inner']; cbn [fst snd conn_calls];
      (split; [reflexivity | rewrite <- ?app_assoc; reflexivity]).
Qed.

(** X13: one upload over a sound connection, from the [with] statement
    to its end: timeout, connection, banner, login, acknowledgement,
    packet, shutdown, close, and [(True, 'OK')]. *)
Theorem upload_over_session passcode ws_type (d : gmap string string) login packet calls0 :
  lines ws_type d = Ok (login, packet) ->
  session passcode (fun sock => upload_data ws_type sock d)
    {| conn_calls := calls0; conn_script := [] |}
  = (Ok (true, "OK"%string),
     {| conn_calls :=
          calls0 ++ [Settimeout 20; Connect (server passcode) 14580; Banner;
                     Use (Sendall login); Use Recv; Use (Sendall packet); Use Shutdown;
                     Close];
        conn_script := [] |}).
Proof.
  intros Hlines. unfold session, step, close. cbn [conn_calls conn_script].
  unfold upload_data. rewrite Hlines, transmit_calls.
  cbn [calls script List.app List.map]. rewrite <- !app_assoc. reflexivity.
Qed.

Lemma upload_over_session_witness :
  session "-1" (fun sock => upload_data "3080" sock Samples.dry_hour)
    {| conn_calls := []; conn_script := [] |}
  = (Ok (true, "OK"%string),
     {| conn_calls :=
          [] ++ [Settimeout 20; Connect (server "-1") 14580; Banner;
                 Use (Sendall (login_line Samples.dry_hour)); Use Recv;
                 Use (Sendall (status_line Samples.dry_hour true)); Use Shutdown;
                 Close];
        conn_script := [] |}).
Proof.
  apply (upload_over_session "-1" "3080" Samples.dry_hour
           (login_line Samples.dry_hour) (status_line Samples.dry_hour true) []).
  vm_compute. reflexivity.
Defined.

End CwopMore.

(** ** src/pywws/service/openweathermap.py, further *)

Module OpenWeatherMapMore.

Import OpenWeatherMap.

Section Http.

Variable float : Type.
Variable py_float : string -> option float.

Local Abbreviation register := (register float py_float).
Local Abbreviation station_data := (station_data float py_float).
Local Abbreviation after_register := (OpenWeatherMapObject.after_register float py_float).

Lemma station_data_floats p :
  succeeded (station_data p) = false
  <-> py_float (lat p) = None \/ py_float (long p) = None \/ py_float (alt p) = None.
Proof.
  unfold OpenWeatherMap.station_data, to_float.
  destruct (py_float (lat p)), (py_float (long p)), (py_float (alt p)); simpl;
    intuition discriminate.
Qed.

(** X14: [register] makes one request, or none: none exactly when the
    latitude, the longitude or the altitude of the configuration is
    not a float (as the empty default is not, when [float] refuses
    it), and then it raises [ValueError] and stores nothing. *)
Theorem register_one_request (self : ToService) (s : session float) :
  let run := register self s in
  let requests := snd (fst run) in
  (length requests <= 1)%nat
  /\ (requests = []
      <-> py_float (lat (params self)) = None \/ py_float (long (params self)) = None
          \/ py_float (alt (params self)) = None)
  /\ (requests = [] ->
      fst (fst run) = Raise (ValueError "could not convert string to float")
      /\ snd run = ctx self).
Proof.
  cbv zeta. rewrite <- station_data_floats. unfold OpenWeatherMap.register.
  destruct (station_data (params self)) as [data | e] eqn:Edata.
  - assert (forall req : request float, [req] = [] <-> false = false /\ False)
      as Hone by (intros req; split; [discriminate | intros [_ []]]).
    destruct (truthy (station_id self)); destruct (s _) as [rsp | ex];
      try destruct (json rsp) as [answer | e]; try destruct (answer !! "ID");
      cbn [fst snd length succeeded];
      (split; [lia |]); (split; [split; [discriminate | discriminate] |]);
      discriminate.
  - cbn [fst snd length succeeded]. split; [lia |]. split; [tauto |].
    intros _. split; [| reflexivity].
    unfold OpenWeatherMap.station_data, to_float in Edata.
    destruct (py_float (lat (params self))); [| injection Edata as <-; reflexivity].
    destruct (py_float (long (params self))); [| injection Edata as <-; reflexivity].
    destruct (py_float (alt (params self))); [discriminate |].
    injection Edata as <-; reflexivity.
Qed.

(** X15: the station id is the only entry of the configuration that
    [register] can change. *)
Theorem register_keeps_other_entries (self : ToService) (s : session float) section key :
  (section, key) <> (service_name, "station id"%string) ->
  get (snd (register self s)) section key = get (ctx self) section key.
Proof.
  intros Hne. unfold OpenWeatherMap.register.
  destruct (station_data (params self)) as [data | e]; [| reflexivity].
  destruct (truthy (station_id self)); destruct (s _) as [rsp | ex];
    try destruct (json rsp) as [answer | e]; try destruct (answer !! "ID");
    cbn [snd]; try reflexivity.
  unfold get, set. apply lookup_insert_ne. congruence.
Qed.

(** X16: [register] does not give the object the id it has stored: on
    an object made without a station id, a second call creates a
    station again, with the same POST, also after a first call that
    stored an id. *)
Theorem register_again_creates_again (self : ToService) (s : session float) data :
  station_data (params self) = Ok data ->
  truthy (station_id self) = false ->
  snd (fst (register self s)) = [POST float stations_url (Station float data)]
  /\ snd (fst (register (after_register self s) s))
     = [POST float stations_url (Station float data)].
Proof.
  intros Hdata Hid.
  assert (forall c, snd (fst (register {| params := params self;
                                          station_id := station_id self; ctx := c |} s))
                    = [POST float stations_url (Station float data)]) as H.
  { intros c. unfold OpenWeatherMap.register. cbn [params station_id].
    rewrite Hdata, Hid. destruct (s _) as [rsp | ex]; [| reflexivity].
    destruct (json rsp) as [answer | e]; [| reflexivity].
    destruct (answer !! "ID"); reflexivity. }
  split; [| apply H].
  destruct self as [p i c]. apply H.
Qed.

End Http.

Lemma register_keeps_other_entries_witness :
  get (snd (OpenWeatherMap.register Z Samples.whole_float
              (init Samples.unregistered) Samples.server))
    service_name "api key"
  = get (ctx (init Samples.unregistered)) service_name "api key".
Proof.
  apply (register_keeps_other_entries Z Samples.whole_float
           (init Samples.unregistered) Samples.server service_name "api key").
  discriminate.
Defined.

Lemma register_again_creates_again_witness :
  snd (fst (OpenWeatherMap.register Z Samples.whole_float
              (init Samples.unregistered) Samples.server))
  = [POST Z stations_url
       (Station Z {| s_external_id := "SW1Aweather"; s_name := "Buck House";
                     s_latitude := 51; s_longitude := 0; s_altitude := 10 |})]
  /\ snd (fst (OpenWeatherMap.register Z Samples.whole_float
                 (OpenWeatherMapObject.after_register Z Samples.whole_float
                    (init Samples.unregistered)
                    Samples.server)
                 Samples.server))
     = [POST Z stations_url
          (Station Z {| s_external_id := "SW1Aweather"; s_name := "Buck House";
                        s_latitude := 51; s_longitude := 0; s_altitude := 10 |})].
Proof.
  apply (register_again_creates_again Z Samples.whole_float
           (init Samples.unregistered) Samples.server); vm_compute; reflexivity.
Defined.

End OpenWeatherMapMore.

(** ** scripts/bulk_metoffice_generator.py: main *)

Module BulkMainFacts.

Import BulkMain.

Section Main.

Variable generate : string -> string -> result Z.

Lemma getopt_verbose v args :
  v = "-v"%string \/ v = "--verbose"%string ->
  getopt (v :: args)
  = match getopt args with
    | Some (opts, rest) => Some ((v, ""%string) :: opts, rest)
    | None => None
    end.
Proof.
  intros [-> | ->].
  - change (getopt ("-v"%string :: args))
      with (match getopt args with
            | Some (opts, rest) => Some ([("-v", "")]%string ++ opts, rest)
            | None => None
            end).
    destruct (getopt args) as [[opts rest] |]; reflexivity.
  - change (getopt ("--verbose"%string :: args))
      with (match getopt args with
            | Some (opts, rest) => Some ([("--verbose", "")]%string ++ opts, rest)
            | None => None
            end).
    destruct (getopt args) as [[opts rest] |]; reflexivity.
Qed.

(** X17: a [-v] or [--verbose] in front of the arguments changes
    neither the exit code nor what [GenerateBulk] is called with. *)
Theorem main_ignores_verbose prog v args :
  v = "-v"%string \/ v = "--verbose"%string ->
  main generate (prog :: v :: args) = main generate (prog :: args)
  /\ called (prog :: v :: args) = called (prog :: args).
Proof.
  intros Hv. unfold main, called. cbn [List.tl]. rewrite (getopt_verbose v args Hv).
  destruct (getopt args) as [[opts rest] |]; [| split; reflexivity].
  assert (is_help (v, ""%string) = false) as Hh by (destruct Hv as [-> | ->]; reflexivity).
  cbn [existsb]. unfold is_help in *. rewrite Hh. split; reflexivity.
Qed.

Lemma after_dash_some arg rest :
  after_dash arg = Some rest -> arg = String "-" rest /\ rest <> EmptyString.
Proof.
  destruct arg as [| c [| c' arg]]; simpl; try discriminate.
  - destruct (Ascii.eqb c "-"); discriminate.
  - destruct (Ascii.eqb_spec c "-"%char) as [-> |]; [| discriminate].
    intros E. injection E as <-. split; [reflexivity | discriminate].
Qed.

(** What [getopt] takes for options is the front of the arguments,
    each with a dash first; a help option among them is found. *)
Lemma getopt_split args : forall opts rest,
  getopt args = Some (opts, rest) ->
  exists pre,
    args = pre ++ rest
    /\ Forall (fun a => prefix "-" a = true) pre
    /\ (forall a, In a pre -> a = "-h"%string \/ a = "--help"%string ->
        existsb is_help opts = true).
Proof.
  induction args as [| arg args IH]; intros opts rest; cbn [getopt].
  - intros E. injection E as <- <-. exists []. repeat split; [constructor | intros a []].
  - destruct (after_dash arg) as [r |] eqn:Edash.
    + apply after_dash_some in Edash as [-> Hr].
      destruct (String.eqb_spec r "-") as [-> | Hterm].
      * intros E. injection E as <- <-. exists ["--"%string].
        repeat split; [repeat constructor |].
        intros a [<- | []] [H | H]; discriminate H.
      * destruct (parse_option r) as [os |] eqn:Eopt; [| discriminate].
        destruct (getopt args) as [[opts' rest'] |]; [| discriminate].
        intros E. injection E as <- <-.
        destruct (IH opts' rest' eq_refl) as (pre & -> & Hdash & Hhelp).
        exists (String "-" r :: pre). repeat split; [constructor; [reflexivity | exact Hdash] |].
        intros a [<- | Hin] Ha; rewrite existsb_app.
        -- destruct Ha as [Ha | Ha]; injection Ha as ->; vm_compute in Eopt;
             injection Eopt as <-; reflexivity.
        -- rewrite (Hhelp a Hin Ha). apply orb_true_r.
    + intros E. injection E as <- <-. exists []. repeat split; [constructor | intros a []].
Qed.

(** X18: [main] calls [GenerateBulk] only with the last two arguments
    of the command line, when all that comes before them is options
    (or the mark [--] that ends them) without [-h] or [--help]; in all
    other cases it returns 0, 1 or 2 by itself. *)
Theorem main_calls_generate argv :
  match called argv with
  | Some (data_dir, out_file) =>
      main generate argv = generate data_dir out_file
      /\ exists pre,
           List.tl argv = pre ++ [data_dir; out_file]
           /\ Forall (fun a => prefix "-" a = true) pre
           /\ ~ In "-h"%string pre /\ ~ In "--help"%string pre
  | None =>
      main generate argv = Ok 0 \/ main generate argv = Ok 1 \/ main generate argv = Ok 2
  end.
Proof.
  unfold called, main.
  destruct (getopt (List.tl argv)) as [[opts rest] |] eqn:Eget; [| auto].
  fold is_help. change (fun o => is_help o) with is_help.
  destruct (getopt_split _ _ _ Eget) as (pre & Hargs & Hdash & Hhelp).
  destruct (existsb is_help opts) eqn:Ehelp.
  - destruct rest as [| a [| b [| c rest]]]; auto.
  - destruct rest as [| a [| b [| c rest]]]; auto.
    split; [reflexivity |]. exists pre. repeat split; trivial.
    + intros Hin. specialize (Hhelp _ Hin (or_introl eq_refl)). congruence.
    + intros Hin. specialize (Hhelp _ Hin (or_intror eq_refl)). congruence.
Qed.

End Main.

Lemma main_ignores_verbose_witness :
  main (fun _ _ => Ok 0) ["bulk"; "-v"; "data"; "out.csv"]%string
  = main (fun _ _ => Ok 0) ["bulk"; "data"; "out.csv"]%string
  /\ called ["bulk"; "-v"; "data"; "out.csv"]%string
     = called ["bulk"; "data"; "out.csv"]%string.
Proof.
  apply (main_ignores_verbose (fun _ _ => Ok 0) "bulk" "-v" ["data"; "out.csv"]%string).
  left; reflexivity.
Defined.

End BulkMainFacts.
